(** * Plot record service (src/api/main.py)

    A shallow embedding of the FastAPI application and of the parts of
    SQLAlchemy, the PostgreSQL driver, PostgreSQL and FastAPI that its six
    endpoints call, followed by the properties of the endpoints.

    Conventions of the model.
    - A Python [str] is a sequence of Unicode code points.
    - The table [plots] is a finite map from the primary key [id] to the
      other four columns; the serial sequence behind [id] is a counter.
    - ORM instances are mutable Python objects: they live in a heap and the
      handlers hold locations, so that [plot.title = ...] followed by
      [db.commit()] is seen by the session.
    - A handler is a computation in a state-and-exception monad over the
      [World] (database, heap, open sessions).
    - The driver sends no string with U+0000 or a surrogate; a
      [varchar(n)] column counts characters, cuts spaces beyond [n] and
      refuses anything else beyond [n].
    - ILIKE lower-cases pattern and value with the locale of the database,
      character by character; the locale is a parameter. *)

From Stdlib Require Import ZArith NArith String Ascii List Bool Lia.
From stdpp Require Import gmap strings list sorting.

Local Open Scope string_scope.
Local Open Scope list_scope.
Local Open Scope Z_scope.

(** ** Text *)

(** A Python [str]: its code points. *)
Abbreviation str := (list N).

(** The [str] of a literal of ASCII characters. *)
Definition text (s : string) : str :=
  N_of_ascii <$> list_ascii_of_string s.

Definition percent : N := 37%N.
Definition underscore : N := 95%N.
Definition backslash : N := 92%N.
Definition space : N := 32%N.

(** What the driver can encode for the server: a code point other than
    U+0000 and the surrogates. Binding any other [str] to a statement is a
    [ValueError] before the statement is sent. *)
Definition bindable_char (c : N) : bool :=
  ((0 <? c) && (c <? 1114112) && negb ((55296 <=? c) && (c <=? 57343)))%N.

Definition bindable (s : str) : bool := forallb bindable_char s.

(** The locale of the database: how [lower()] maps a character. It leaves
    the characters that LIKE reads as more than themselves alone, maps no
    other character to them, and maps a character the server can hold to
    one it can hold. *)
Class Locale := mkLocale {
  lower : N → N;
  lower_percent : ∀ c, lower c = percent ↔ c = percent;
  lower_underscore : ∀ c, lower c = underscore ↔ c = underscore;
  lower_backslash : ∀ c, lower c = backslash ↔ c = backslash;
  lower_bindable : ∀ c, bindable_char (lower c) = bindable_char c
}.

(** The C locale: the capital letters of ASCII and nothing else. *)
Definition lower_C (c : N) : N :=
  if ((65 <=? c) && (c <=? 90))%N then (c + 32)%N else c.

(** A locale that also knows the capital letters of Latin-1. *)
Definition lower_latin1 (c : N) : N :=
  if ((65 <=? c) && (c <=? 90))%N then (c + 32)%N
  else if ((192 <=? c) && (c <=? 222) && negb (c =? 215))%N then (c + 32)%N
  else c.

(** Comparisons of code points as propositions, for [lia]. *)
Ltac compare_N :=
  repeat match goal with
  | H : (_ <=? _)%N = true |- _ => apply N.leb_le in H
  | H : (_ <=? _)%N = false |- _ => apply N.leb_gt in H
  | H : (_ =? _)%N = true |- _ => apply N.eqb_eq in H
  | H : (_ =? _)%N = false |- _ => apply N.eqb_neq in H
  end.

Lemma lower_C_fixes m :
  (m < 65 ∨ 90 < m)%N → (m < 97 ∨ 122 < m)%N → ∀ c, lower_C c = m ↔ c = m.
Proof.
  unfold lower_C. intros Hm Hm' c.
  destruct (65 <=? c)%N eqn:H1, (c <=? 90)%N eqn:H2; cbn [andb];
    compare_N; lia.
Qed.

Lemma lower_C_bindable c : bindable_char (lower_C c) = bindable_char c.
Proof.
  unfold lower_C, bindable_char.
  destruct (65 <=? c)%N eqn:H1, (c <=? 90)%N eqn:H2; cbn [andb]; try done.
  compare_N.
  replace (0 <? c + 32)%N with true by (symmetry; apply N.ltb_lt; lia).
  replace (0 <? c)%N with true by (symmetry; apply N.ltb_lt; lia).
  replace (c + 32 <? 1114112)%N with true by (symmetry; apply N.ltb_lt; lia).
  replace (c <? 1114112)%N with true by (symmetry; apply N.ltb_lt; lia).
  replace (55296 <=? c + 32)%N with false by (symmetry; apply N.leb_gt; lia).
  replace (55296 <=? c)%N with false by (symmetry; apply N.leb_gt; lia).
  done.
Qed.

Definition C_locale : Locale :=
  mkLocale lower_C
    (lower_C_fixes percent ltac:(unfold percent; lia) ltac:(unfold percent; lia))
    (lower_C_fixes underscore ltac:(unfold underscore; lia) ltac:(unfold underscore; lia))
    (lower_C_fixes backslash ltac:(unfold backslash; lia) ltac:(unfold backslash; lia))
    lower_C_bindable.

Lemma lower_latin1_fixes m :
  (m < 65 ∨ 90 < m)%N → (m < 97 ∨ 122 < m)%N → (m < 192)%N →
  ∀ c, lower_latin1 c = m ↔ c = m.
Proof.
  unfold lower_latin1. intros Hm Hm' Hm'' c.
  destruct (65 <=? c)%N eqn:H1, (c <=? 90)%N eqn:H2, (192 <=? c)%N eqn:H3,
    (c <=? 222)%N eqn:H4, (c =? 215)%N eqn:H5; cbn [andb negb];
    compare_N; lia.
Qed.

Lemma lower_latin1_bindable c : bindable_char (lower_latin1 c) = bindable_char c.
Proof.
  unfold lower_latin1, bindable_char.
  assert (Hsmall : ∀ d, (0 < d)%N → (d < 300)%N →
    ((0 <? d) && (d <? 1114112) && negb ((55296 <=? d) && (d <=? 57343)))%N = true).
  { intros d H0 H300.
    replace (0 <? d)%N with true by (symmetry; apply N.ltb_lt; lia).
    replace (d <? 1114112)%N with true by (symmetry; apply N.ltb_lt; lia).
    replace (55296 <=? d)%N with false by (symmetry; apply N.leb_gt; lia).
    done. }
  destruct (65 <=? c)%N eqn:H1, (c <=? 90)%N eqn:H2; cbn [andb]; compare_N.
  1: by rewrite !Hsmall by lia.
  all: destruct (192 <=? c)%N eqn:H3, (c <=? 222)%N eqn:H4, (c =? 215)%N eqn:H5;
    cbn [andb negb]; compare_N; try done;
    by rewrite !Hsmall by lia.
Qed.

Definition latin1_locale : Locale :=
  mkLocale lower_latin1
    (lower_latin1_fixes percent ltac:(unfold percent; lia) ltac:(unfold percent; lia)
       ltac:(unfold percent; lia))
    (lower_latin1_fixes underscore ltac:(unfold underscore; lia)
       ltac:(unfold underscore; lia) ltac:(unfold underscore; lia))
    (lower_latin1_fixes backslash ltac:(unfold backslash; lia)
       ltac:(unfold backslash; lia) ltac:(unfold backslash; lia))
    lower_latin1_bindable.

(** ** Pydantic schemas *)

(** [class PlotBase(BaseModel)]; [class PlotCreate(PlotBase): pass]. *)
Record PlotBase := mkPlotBase {
  title : str;
  work : str;
  status : str;
  summary : option str
}.

Abbreviation PlotCreate := PlotBase.

(** [class PlotRead(PlotBase)] adds [id: int]. *)
Record PlotRead := mkPlotRead {
  id : Z;
  fields :> PlotBase
}.

(** ** SQLAlchemy model *)

(** An instance of [class PlotModel(Base)]: the primary key is unset until
    the INSERT has been flushed. *)
Record PlotModel := mkPlotModel {
  pk : option Z;
  columns : PlotBase
}.

Definition set_title (v : str) (o : PlotModel) : PlotModel :=
  mkPlotModel (pk o) (mkPlotBase v (work (columns o)) (status (columns o)) (summary (columns o))).
Definition set_work (v : str) (o : PlotModel) : PlotModel :=
  mkPlotModel (pk o) (mkPlotBase (title (columns o)) v (status (columns o)) (summary (columns o))).
Definition set_status (v : str) (o : PlotModel) : PlotModel :=
  mkPlotModel (pk o) (mkPlotBase (title (columns o)) (work (columns o)) v (summary (columns o))).
Definition set_summary (v : option str) (o : PlotModel) : PlotModel :=
  mkPlotModel (pk o) (mkPlotBase (title (columns o)) (work (columns o)) (status (columns o)) v).

(** A row of the table as a query sees it: [(id, other columns)]. *)
Definition Row : Type := Z * PlotBase.

Definition row_read (r : Row) : PlotRead := mkPlotRead (fst r) (snd r).

(** ** The world: database, heap and sessions *)

(** What a session remembers between [add]/[delete]/queries and [commit]. *)
Record UnitOfWork := mkUnitOfWork {
  uow_new : list nat;        (* pending instances, to be INSERTed *)
  uow_identity : list nat;   (* persistent instances loaded or flushed here *)
  uow_deleted : list nat     (* instances marked for DELETE *)
}.

Definition uow_empty : UnitOfWork := mkUnitOfWork [] [] [].

Record World := mkWorld {
  plots : gmap Z PlotBase;          (* table "plots" *)
  plots_id_seq : Z;                 (* last value of the serial sequence *)
  objects : list PlotModel;         (* heap of PlotModel instances *)
  sessions : gmap nat UnitOfWork    (* sessions that are open, by handle *)
}.

Definition with_plots (t : gmap Z PlotBase) (w : World) : World :=
  mkWorld t (plots_id_seq w) (objects w) (sessions w).
Definition with_seq (n : Z) (w : World) : World :=
  mkWorld (plots w) n (objects w) (sessions w).
Definition with_objects (h : list PlotModel) (w : World) : World :=
  mkWorld (plots w) (plots_id_seq w) h (sessions w).
Definition with_sessions (s : gmap nat UnitOfWork) (w : World) : World :=
  mkWorld (plots w) (plots_id_seq w) (objects w) s.

(** ** Exceptions and the handler monad *)

Inductive Exception :=
| HTTPException (status_code : Z) (detail : string)
| NameError (name : string)
| ValueError             (* the driver cannot send the string *)
| DataError              (* value too long for type character varying(n) *)
| IntegrityError         (* duplicate key value violates unique constraint *)
| InvalidRequestError    (* the instance has no row, or no such instance *)
| ValidationError.       (* the response does not fit the response_model *)

Inductive Result (A : Type) :=
| Return (a : A)
| Raise (e : Exception).
Arguments Return {A} a.
Arguments Raise {A} e.

Definition M (A : Type) : Type := World → Result A * World.

Definition ret {A} (a : A) : M A := λ w, (Return a, w).
Definition raise {A} (e : Exception) : M A := λ w, (Raise e, w).
Definition bind {A B} (m : M A) (k : A → M B) : M B :=
  λ w, match m w with
       | (Return a, w') => k a w'
       | (Raise e, w') => (Raise e, w')
       end.

Notation "'let!' x ':=' m 'in' k" := (bind m (λ x, k))
  (at level 10, x name, m at level 100, k at level 200).
Notation "'do!' m 'in' k" := (bind m (λ _, k))
  (at level 10, m at level 100, k at level 200).

Definition get_world : M World := λ w, (Return w, w).
Definition modify (f : World → World) : M unit := λ w, (Return tt, f w).

(** [try: body finally: fin] — [fin] runs whether [body] returned or raised;
    an exception of [fin] replaces the outcome of [body]. *)
Definition try_finally {A} (body : M A) (fin : M unit) : M A :=
  λ w, match body w with
       | (r, w') =>
           match fin w' with
           | (Return _, w'') => (r, w'')
           | (Raise e, w'') => (Raise e, w'')
           end
       end.

Fixpoint for_each {A} (f : A → M unit) (l : list A) : M unit :=
  match l with
  | [] => ret tt
  | x :: l' => do! f x in for_each f l'
  end.

Fixpoint map_m {A B} (f : A → M B) (l : list A) : M (list B) :=
  match l with
  | [] => ret []
  | x :: l' => let! y := f x in let! ys := map_m f l' in ret (y :: ys)
  end.

(** ** Columns *)

(** What a [String(n)] column makes of a value: PostgreSQL counts
    characters, cuts the characters beyond [n] when they are all spaces and
    refuses the value otherwise. *)
Definition varchar (n : nat) (s : str) : Result str :=
  if (length s <=? n)%nat then Return s
  else if forallb (N.eqb space) (drop n s) then Return (take n s)
  else Raise DataError.

(** The strings that an INSERT of the four columns binds. *)
Definition binds (c : PlotBase) : list str :=
  [title c; work c; status c]
  ++ match summary c with Some x => [x] | None => [] end.

(** The row that an INSERT of the four columns writes: [String(200)],
    [String(100)], [String(50)], and [Text], which has no width. *)
Definition insert_columns (c : PlotBase) : Result PlotBase :=
  match varchar 200 (title c), varchar 100 (work c), varchar 50 (status c) with
  | Return t, Return w, Return s => Return (mkPlotBase t w s (summary c))
  | _, _, _ => Raise DataError
  end.

(** An UPDATE sets the attributes that differ from the row, and only
    those: the strings it binds... *)
Definition update_binds (row c : PlotBase) : list str :=
  (if decide (title row = title c) then [] else [title c])
  ++ (if decide (work row = work c) then [] else [work c])
  ++ (if decide (status row = status c) then [] else [status c])
  ++ (if decide (summary row = summary c) then []
      else match summary c with Some x => [x] | None => [] end).

(** ... and the row it leaves. *)
Definition update_columns (row c : PlotBase) : Result PlotBase :=
  match (if decide (title row = title c) then Return (title row)
         else varchar 200 (title c)),
        (if decide (work row = work c) then Return (work row)
         else varchar 100 (work c)),
        (if decide (status row = status c) then Return (status row)
         else varchar 50 (status c)) with
  | Return t, Return w, Return s => Return (mkPlotBase t w s (summary c))
  | _, _, _ => Raise DataError
  end.

(** ** SQL conditions *)

(** A WHERE condition: the strings it binds as parameters, and its value
    on a row — TRUE, FALSE or NULL ([None]) — when it can be evaluated. *)
Record Cond := mkCond {
  cond_binds : list str;
  cond_holds : Row → Result (option bool)
}.

Definition PlotModel_id (r : Row) : option Z := Some (fst r).
Definition PlotModel_title (r : Row) : option str := Some (title (snd r)).
Definition PlotModel_work (r : Row) : option str := Some (work (snd r)).
Definition PlotModel_status (r : Row) : option str := Some (status (snd r)).
Definition PlotModel_summary (r : Row) : option str := summary (snd r).

(** [column == value] *)
Definition eq_int (col : Row → option Z) (v : Z) : Cond :=
  mkCond []
    (λ r, Return (match col r with Some x => Some (Z.eqb x v) | None => None end)).
Definition eq_str (col : Row → option str) (v : str) : Cond :=
  mkCond [v]
    (λ r, Return (match col r with
                  | Some x => Some (bool_decide (x = v))
                  | None => None
                  end)).

(** SQL's three-valued OR. *)
Definition sql_or (a b : option bool) : option bool :=
  match a, b with
  | Some true, _ => Some true
  | _, Some true => Some true
  | Some false, Some false => Some false
  | _, _ => None
  end.

(** [c1 | c2] *)
Definition or_ (c1 c2 : Cond) : Cond :=
  mkCond (cond_binds c1 ++ cond_binds c2)
    (λ r, match cond_holds c1 r with
          | Return a => match cond_holds c2 r with
                        | Return b => Return (sql_or a b)
                        | Raise e => Raise e
                        end
          | Raise e => Raise e
          end).

(** *** LIKE patterns (PostgreSQL: [%], [_], escape character backslash) *)

Inductive LikeItem :=
| AnyString            (* % *)
| AnyChar              (* _ *)
| Literal (c : N).

Definition is_meta (c : N) : bool :=
  (c =? percent)%N || (c =? underscore)%N || (c =? backslash)%N.

(** [None]: the pattern ends with the escape character, which PostgreSQL
    rejects. *)
Fixpoint like_parse (p : list N) : option (list LikeItem) :=
  match p with
  | [] => Some []
  | c :: p' =>
      if (c =? backslash)%N then
        match p' with
        | [] => None
        | d :: p'' => option_map (cons (Literal d)) (like_parse p'')
        end
      else if (c =? percent)%N then option_map (cons AnyString) (like_parse p')
      else if (c =? underscore)%N then option_map (cons AnyChar) (like_parse p')
      else option_map (cons (Literal c)) (like_parse p')
  end.

(** [_] stands for one character, [%] for any run of characters. *)
Fixpoint like_match (p : list LikeItem) (s : list N) : bool :=
  match p with
  | [] => match s with [] => true | _ :: _ => false end
  | Literal c :: p' =>
      match s with
      | d :: s' => (c =? d)%N && like_match p' s'
      | [] => false
      end
  | AnyChar :: p' =>
      match s with
      | _ :: s' => like_match p' s'
      | [] => false
      end
  | AnyString :: p' =>
      (fix skip (s : list N) : bool :=
         like_match p' s
         || match s with
            | _ :: s' => skip s'
            | [] => false
            end) s
  end.

Section Service.
Context {L : Locale}.

(** [column.ilike(pattern)]: pattern and value in lower case, then LIKE. *)
Definition ilike (col : Row → option str) (pattern : str) : Cond :=
  mkCond [pattern]
    (λ r, match like_parse (lower <$> pattern) with
          | None => Raise DataError
          | Some items =>
              Return (match col r with
                      | Some x => Some (like_match items (lower <$> x))
                      | None => None
                      end)
          end).

(** ** Queries *)

Record Query := mkQuery {
  query_session : nat;
  query_where : list Cond;       (* conjunction, in the order of [filter] *)
  query_order_by_id : bool       (* ORDER BY plots.id ASC *)
}.

(** [db.query(PlotModel)] *)
Definition db_query (db : nat) : Query := mkQuery db [] false.

(** [query.filter(cond)] *)
Definition filter_ (c : Cond) (query : Query) : Query :=
  mkQuery (query_session query) (query_where query ++ [c]) (query_order_by_id query).

(** [query.order_by(PlotModel.id.asc())] *)
Definition order_by_id_asc (query : Query) : Query :=
  mkQuery (query_session query) (query_where query) true.

(** WHERE keeps a row on TRUE, not on FALSE or NULL. *)
Definition sql_true (v : option bool) : bool :=
  match v with
  | Some true => true
  | _ => false
  end.

(** The row passes when every condition is TRUE. *)
Fixpoint where_holds (cs : list Cond) (r : Row) : Result bool :=
  match cs with
  | [] => Return true
  | c :: cs' =>
      match cond_holds c r with
      | Raise e => Raise e
      | Return v =>
          match where_holds cs' r with
          | Raise e => Raise e
          | Return b => Return (sql_true v && b)
          end
      end
  end.

Fixpoint select_where (cs : list Cond) (rows : list Row) : Result (list Row) :=
  match rows with
  | [] => Return []
  | r :: rows' =>
      match where_holds cs r with
      | Raise e => Raise e
      | Return b =>
          match select_where cs rows' with
          | Raise e => Raise e
          | Return l => Return (if b then r :: l else l)
          end
      end
  end.

Definition id_le (a b : Row) : Prop := fst a ≤ fst b.

#[global] Instance id_le_dec a b : Decision (id_le a b) := Z_le_dec (fst a) (fst b).

(** The strings that the statement of a query binds. *)
Definition query_binds (query : Query) : list str :=
  concat (cond_binds <$> query_where query).

(** The SELECT statement of a query, on the table as it stands: the driver
    binds the parameters, then the server evaluates. *)
Definition select (query : Query) (w : World) : Result (list Row) :=
  if forallb bindable (query_binds query) then
    match select_where (query_where query) (map_to_list (plots w)) with
    | Raise e => Raise e
    | Return rows =>
        Return (if query_order_by_id query then merge_sort id_le rows else rows)
    end
  else Raise ValueError.

(** ** Sessions *)

Definition session_uow (db : nat) (w : World) : UnitOfWork :=
  default uow_empty (sessions w !! db).

Definition update_uow (db : nat) (f : UnitOfWork → UnitOfWork) : M unit :=
  modify (λ w, with_sessions (<[db := f (session_uow db w)]> (sessions w)) w).

(** [SessionLocal()]: a new session, under a handle no open session has. *)
Definition SessionLocal : M nat :=
  λ w, let db := fresh (dom (sessions w)) in
       (Return db, with_sessions (<[db := uow_empty]> (sessions w)) w).

(** [db.close()]: the handle is given back; what was not committed is lost. *)
Definition db_close (db : nat) : M unit :=
  modify (λ w, with_sessions (delete db (sessions w)) w).

(** A new Python object; its location is the next free one. *)
Definition alloc (o : PlotModel) : M nat :=
  λ w, (Return (length (objects w)), with_objects (objects w ++ [o]) w).

Definition getobj (plot : nat) : M PlotModel :=
  λ w, match objects w !! plot with
       | Some o => (Return o, w)
       | None => (Raise InvalidRequestError, w)
       end.

(** Attribute assignment [plot.attr = v], [set] being the setter of [attr]. *)
Definition setattr (plot : nat) (set : PlotModel → PlotModel) : M unit :=
  let! o := getobj plot in
  modify (λ w, with_objects (<[plot := set o]> (objects w)) w).

(** [PlotModel(title=..., work=..., status=..., summary=...)] *)
Definition new_PlotModel (title work status : str) (summary : option str) : M nat :=
  alloc (mkPlotModel None (mkPlotBase title work status summary)).

(** [db.add(plot)] *)
Definition db_add (db plot : nat) : M unit :=
  update_uow db (λ u, mkUnitOfWork (uow_new u ++ [plot]) (uow_identity u) (uow_deleted u)).

(** [db.delete(plot)] *)
Definition db_delete (db plot : nat) : M unit :=
  update_uow db (λ u, mkUnitOfWork (uow_new u) (uow_identity u) (uow_deleted u ++ [plot])).

(** A row that a query returns becomes a persistent instance of the session.
    (Every handler runs one query in its session, so no row is loaded
    twice.) *)
Definition load (db : nat) (r : Row) : M nat :=
  let! plot := alloc (mkPlotModel (Some (fst r)) (snd r)) in
  do! update_uow db (λ u, mkUnitOfWork (uow_new u) (uow_identity u ++ [plot]) (uow_deleted u)) in
  ret plot.

Definition run_select (query : Query) : M (list Row) :=
  λ w, match select query w with
       | Return rows => (Return rows, w)
       | Raise e => (Raise e, w)
       end.

(** [query.all()] *)
Definition all_ (query : Query) : M (list nat) :=
  let! rows := run_select query in
  map_m (load (query_session query)) rows.

(** [query.first()]: LIMIT 1. *)
Definition first (query : Query) : M (option nat) :=
  let! rows := run_select query in
  match rows with
  | [] => ret None
  | r :: _ => let! plot := load (query_session query) r in ret (Some plot)
  end.

#[global] Instance PlotBase_eq_dec : EqDecision PlotBase.
Proof. solve_decision. Defined.

(** INSERT of a pending instance: the driver binds the values, the server
    fits them to the columns and takes the key from the sequence. *)
Definition flush_insert (plot : nat) : M unit :=
  let! o := getobj plot in
  if forallb bindable (binds (columns o)) then
    match insert_columns (columns o) with
    | Raise e => raise e
    | Return row =>
        let! w := get_world in
        let k := plots_id_seq w + 1 in
        do! modify (with_seq k) in
        match plots w !! k with
        | Some _ => raise IntegrityError
        | None =>
            do! modify (λ w, with_plots (<[k := row]> (plots w)) w) in
            setattr plot (λ _, mkPlotModel (Some k) (columns o))
        end
    end
  else raise ValueError.

(** UPDATE of a persistent instance whose attributes differ from its row. *)
Definition flush_update (plot : nat) : M unit :=
  let! o := getobj plot in
  let! w := get_world in
  match pk o with
  | None => raise InvalidRequestError
  | Some k =>
      match plots w !! k with
      | None => raise InvalidRequestError
      | Some row =>
          if decide (row = columns o) then ret tt
          else if forallb bindable (update_binds row (columns o)) then
            match update_columns row (columns o) with
            | Raise e => raise e
            | Return row' =>
                modify (λ w, with_plots (<[k := row']> (plots w)) w)
            end
          else raise ValueError
      end
  end.

(** DELETE of an instance marked by [db.delete]. *)
Definition flush_delete (plot : nat) : M unit :=
  let! o := getobj plot in
  let! w := get_world in
  match pk o with
  | None => raise InvalidRequestError
  | Some k =>
      match plots w !! k with
      | None => raise InvalidRequestError
      | Some _ => modify (λ w, with_plots (delete k (plots w)) w)
      end
  end.

Definition flush (db : nat) : M unit :=
  let! w := get_world in
  let u := session_uow db w in
  do! for_each flush_insert (uow_new u) in
  do! for_each flush_update
        (filter (λ plot, plot ∉ uow_deleted u) (uow_identity u)) in
  do! for_each flush_delete (uow_deleted u) in
  update_uow db (λ u,
    mkUnitOfWork []
      (filter (λ plot, plot ∉ uow_deleted u) (uow_identity u) ++ uow_new u) []).

(** [db.commit()]: the pending statements run in one transaction; when one
    fails the table is as before (the sequence is not rolled back). *)
Definition db_commit (db : nat) : M unit :=
  λ w, match flush db w with
       | (Return _, w') => (Return tt, w')
       | (Raise e, w') => (Raise e, with_plots (plots w) w')
       end.

(** [db.refresh(plot)]: the attributes are read again from the row. *)
Definition db_refresh (db plot : nat) : M unit :=
  let! o := getobj plot in
  let! w := get_world in
  match pk o with
  | None => raise InvalidRequestError
  | Some k =>
      match plots w !! k with
      | None => raise InvalidRequestError
      | Some row => setattr plot (λ _, mkPlotModel (Some k) row)
      end
  end.

(** ** The application *)

(** [def get_db()]: a generator dependency.  [yield_] is what FastAPI does
    with the yielded session (the endpoint and the building of its
    response); an exception there is thrown into the generator at the
    [yield], so the [finally] block runs on both paths. *)
Definition get_db {A} (yield_ : nat → M A) : M A :=
  let! db := SessionLocal in
  try_finally (yield_ db) (db_close db).

(** JSON values of the endpoints that return a dict. *)
Inductive JSON :=
| JInt (n : Z)
| JStr (s : string).

Inductive Response :=
| RespDict (d : list (string * JSON))
| RespPlot (p : PlotRead)
| RespPlots (ps : list PlotRead).

(** [response_model=PlotRead] with [orm_mode]: the attributes of the
    returned instance are read into a [PlotRead]; [id] must be an int. *)
Definition to_PlotRead (plot : nat) : M PlotRead :=
  let! o := getobj plot in
  match pk o with
  | Some k => ret (mkPlotRead k (columns o))
  | None => raise ValidationError
  end.

(** The names bound at module level in main.py (imports, assignments,
    classes and functions). *)
Definition module_globals : list string :=
  ["os"; "List"; "Optional"; "FastAPI"; "Depends"; "HTTPException"; "Query";
   "BaseModel"; "create_engine"; "Column"; "Integer"; "String"; "Text";
   "sessionmaker"; "declarative_base"; "Session"; "DATABASE_URL"; "engine";
   "SessionLocal"; "Base"; "get_db"; "PlotModel"; "PlotBase"; "PlotCreate";
   "PlotRead"; "app"; "on_startup"; "ping"; "list_plots"; "get_plot";
   "create_plot"; "update_plot"; "delete_plot"].

(** Evaluation of a name inside a handler whose local variables holding
    PlotModel instances are [locals]: a local is found first; a module
    global is no PlotModel instance, so the response model rejects it; any
    other name (no builtin is used this way) is unbound. *)
Definition name_ (locals : list (string * nat)) (x : string) : M nat :=
  match list_find (λ b, fst b = x) locals with
  | Some (_, (_, plot)) => ret plot
  | None =>
      if decide (x ∈ module_globals) then raise ValidationError
      else raise (NameError x)
  end.

(** [@app.get("/ping")] *)
Definition ping : M (list (string * JSON)) :=
  ret [("message", JStr "pong")].

(** [@app.get("/plots", response_model=List[PlotRead])].  [if work:] holds
    for a string that is neither [None] nor empty. *)
Definition list_plots (work status q : option str) (db : nat) : M (list nat) :=
  let query := db_query db in
  let query :=
    match work with
    | Some ((_ :: _) as work) => filter_ (eq_str PlotModel_work work) query
    | _ => query
    end in
  let query :=
    match status with
    | Some ((_ :: _) as status) => filter_ (eq_str PlotModel_status status) query
    | _ => query
    end in
  let query :=
    match q with
    | Some ((_ :: _) as q) =>
        let like := [percent] ++ q ++ [percent] in
        filter_ (or_ (ilike PlotModel_title like) (ilike PlotModel_summary like)) query
    | _ => query
    end in
  let! plots := all_ (order_by_id_asc query) in
  ret plots.

(** [@app.get("/plots/{plot_id}", response_model=PlotRead)] *)
Definition get_plot (plot_id : Z) (db : nat) : M nat :=
  let! plot := first (filter_ (eq_int PlotModel_id plot_id) (db_query db)) in
  match plot with
  | None => raise (HTTPException 404 "Plot not found")
  | Some plot => ret plot
  end.

(** [@app.post("/plots", response_model=PlotRead)] *)
Definition create_plot (data : PlotCreate) (db : nat) : M nat :=
  let! plot := new_PlotModel (title data) (work data) (status data) (summary data) in
  do! db_add db plot in
  do! db_commit db in
  do! db_refresh db plot in
  name_ [("plot", plot)] "plotF".

(** [@app.put("/plots/{plot_id}", response_model=PlotRead)] *)
Definition update_plot (plot_id : Z) (data : PlotCreate) (db : nat) : M nat :=
  let! plot := first (filter_ (eq_int PlotModel_id plot_id) (db_query db)) in
  match plot with
  | None => raise (HTTPException 404 "Plot not found")
  | Some plot =>
      do! setattr plot (set_title (title data)) in
      do! setattr plot (set_work (work data)) in
      do! setattr plot (set_status (status data)) in
      do! setattr plot (set_summary (summary data)) in
      do! db_commit db in
      do! db_refresh db plot in
      ret plot
  end.

(** [@app.delete("/plots/{plot_id}")] *)
Definition delete_plot (plot_id : Z) (db : nat) : M (list (string * JSON)) :=
  let! plot := first (filter_ (eq_int PlotModel_id plot_id) (db_query db)) in
  match plot with
  | None => raise (HTTPException 404 "Plot not found")
  | Some plot =>
      do! db_delete db plot in
      do! db_commit db in
      ret [("message", JStr "deleted"); ("id", JInt plot_id)]
  end.

(** The requests that reach an endpoint, after FastAPI has validated the
    path, query and body parameters against the declared types. *)
Inductive Request :=
| GET_ping
| GET_plots (work status q : option str)
| GET_plot (plot_id : Z)
| POST_plots (data : PlotCreate)
| PUT_plot (plot_id : Z) (data : PlotCreate)
| DELETE_plot (plot_id : Z).

(** One request through the application: the dependencies declared with
    [Depends] are resolved, the endpoint runs, and its return value is
    turned into the response. *)
Definition app (req : Request) : M Response :=
  match req with
  | GET_ping =>
      let! d := ping in ret (RespDict d)
  | GET_plots work status q =>
      get_db (λ db,
        let! plots := list_plots work status q db in
        let! ps := map_m to_PlotRead plots in
        ret (RespPlots ps))
  | GET_plot plot_id =>
      get_db (λ db,
        let! plot := get_plot plot_id db in
        let! p := to_PlotRead plot in
        ret (RespPlot p))
  | POST_plots data =>
      get_db (λ db,
        let! plot := create_plot data db in
        let! p := to_PlotRead plot in
        ret (RespPlot p))
  | PUT_plot plot_id data =>
      get_db (λ db,
        let! plot := update_plot plot_id data db in
        let! p := to_PlotRead plot in
        ret (RespPlot p))
  | DELETE_plot plot_id =>
      get_db (λ db,
        let! d := delete_plot plot_id db in
        ret (RespDict d))
  end.

(** The status code of the HTTP response: an [HTTPException] carries its
    own, any other exception is an internal server error. *)
Definition http_status (r : Result Response) : Z :=
  match r with
  | Return _ => 200
  | Raise (HTTPException status_code _) => status_code
  | Raise _ => 500
  end.

(** The database of a newly started service: [create_all] has made the
    empty table. *)
Definition world0 : World := mkWorld ∅ 0 [] ∅.

(** * Vocabulary of the properties *)

(** [m] touches no session but [db]. *)
Definition confined (db : nat) {A} (m : M A) : Prop :=
  ∀ w, delete db (sessions (m w).2) = delete db (sessions w).

(** The one domain error of the service, as the three endpoints raise it. *)
Definition NotFound : Result Response := Raise (HTTPException 404 "Plot not found").

(** A store with the plots 1, 2 and 4 (two of them of the same work); the
    sequence has handed out 4 values and plot 3 is gone. *)
Definition sample_world : World :=
  mkWorld
    (<[1:=mkPlotBase (text "Dragon Rises") (text "A") (text "open") None]>
       (<[2:=mkPlotBase (text "Harbour") (text "B") (text "open")
               (Some (text "The dragon sleeps"))]>
          (<[4:=mkPlotBase (text "50%_off") (text "A") (text "closed") (Some [])]> ∅)))
    4 [] ∅.

(** [m] ends with an exception from every world. *)
Definition always_raises {A} (m : M A) : Prop :=
  ∀ w, ∃ e, (m w).1 = Raise e.

(** [s] begins with [q]. *)
Fixpoint prefixb (q s : list N) : bool :=
  match q, s with
  | [], _ => true
  | _ :: _, [] => false
  | c :: q', d :: s' => (c =? d)%N && prefixb q' s'
  end.

(** [q] occurs in [s] as a run of consecutive characters. *)
Fixpoint substringb (q s : list N) : bool :=
  prefixb q s
  || match s with
     | [] => false
     | _ :: s' => substringb q s'
     end.

(** [x] contains [q] as a substring, letter case apart. *)
Definition contains_ci (q x : str) : bool :=
  substringb (lower <$> q) (lower <$> x).

(** [q] has none of the characters that LIKE reads as more than themselves. *)
Definition meta_free (q : str) : bool :=
  forallb (λ c, negb (is_meta c)) q.

(** The value of a filter parameter when [if v:] holds for it. *)
Definition given (o : option str) : option str :=
  match o with
  | Some ((_ :: _) as v) => Some v
  | _ => None
  end.

(** The value of [x ILIKE like]: NULL for a NULL [x]. *)
Definition like_holds (like : str) (x : option str) : option bool :=
  match like_parse (lower <$> like), x with
  | Some items, Some x => Some (like_match items (lower <$> x))
  | _, _ => None
  end.

(** The WHERE clause that [list_plots] builds, as one boolean on a row. *)
Definition selected (fwork fstatus fq : option str) (r : Row) : bool :=
  match given fwork with
  | Some v => bool_decide (work r.2 = v)
  | None => true
  end
  && match given fstatus with
     | Some v => bool_decide (status r.2 = v)
     | None => true
     end
  && match given fq with
     | Some v =>
         let like := [percent] ++ v ++ [percent] in
         sql_true (sql_or (like_holds like (Some (title r.2)))
                          (like_holds like (summary r.2)))
     | None => true
     end.

(** The answer to a list request in terms of the table alone. *)
Definition listing (fwork fstatus fq : option str) (t : gmap Z PlotBase) : list PlotRead :=
  row_read <$>
    merge_sort id_le
      (filter (λ r, selected fwork fstatus fq r = true) (map_to_list t)).

(** The instance that a query makes of a row. *)
Definition instance_of (r : Row) : PlotModel := mkPlotModel (Some r.1) r.2.

(** Strictly ascending ids. *)
Definition id_lt (a b : PlotRead) : Prop := id a < id b.

(** The filters in the words of the specification: every filter that is
    provided must hold — [work] and [status] equal the given values, and
    the title or the summary contains [q], letter case apart. *)
Definition satisfies (fwork fstatus fq : option str) (p : PlotBase) : bool :=
  match fwork with
  | Some v => bool_decide (work p = v)
  | None => true
  end
  && match fstatus with
     | Some v => bool_decide (status p = v)
     | None => true
     end
  && match fq with
     | Some v =>
         contains_ci v (title p)
         || match summary p with
            | Some x => contains_ci v x
            | None => false
            end
     | None => true
     end.

(** [q] is absent or has none of the LIKE metacharacters. *)
Definition meta_free_opt (fq : option str) : bool :=
  match fq with
  | Some v => meta_free v
  | None => true
  end.

(** The filter is not applied, or the driver can send its value. *)
Definition sendable (o : option str) : bool :=
  match given o with
  | Some v => bindable v
  | None => true
  end.

(** The driver can send every filter that the request applies. *)
Definition sendable_filters (fwork fstatus fq : option str) : bool :=
  sendable fwork && sendable fstatus && sendable fq.

(** Title, work and status have at most as many characters as their
    columns are wide. *)
Definition within_widths (c : PlotBase) : bool :=
  (length (title c) <=? 200)%nat
  && (length (work c) <=? 100)%nat
  && (length (status c) <=? 50)%nat.

(** A body that the database takes as it is: the driver can send its
    strings and they are within the widths of the columns. *)
Definition storable (c : PlotBase) : bool :=
  forallb bindable (binds c) && within_widths c.

(** ** For the further properties *)

(** The sequence has handed out [plots_id_seq] ids, from 1 on; every row
    has one of them as its key, and its values are such as the database
    holds: within the widths, with no character the driver cannot send. *)
Definition store_ok (w : World) : Prop :=
  0 ≤ plots_id_seq w
  ∧ ∀ k c, plots w !! k = Some c → (0 < k ≤ plots_id_seq w) ∧ storable c = true.

(** [m] keeps the store in order and does not take the sequence back. *)
Definition keeps_store {A} (m : M A) : Prop :=
  ∀ w, store_ok w → store_ok (m w).2 ∧ plots_id_seq w ≤ plots_id_seq (m w).2.

(** The requests of a history, served one after the other. *)
Fixpoint serve (reqs : list Request) (w : World) : World :=
  match reqs with
  | [] => w
  | req :: reqs' => serve reqs' (app req w).2
  end.

(** [m] leaves the table and the sequence as they are. *)
Definition reads_only {A} (m : M A) : Prop :=
  ∀ w, plots (m w).2 = plots w ∧ plots_id_seq (m w).2 = plots_id_seq w.

(** How a character of [q] other than the backslash is read in a pattern. *)
Definition item_of (c : N) : LikeItem :=
  if (c =? percent)%N then AnyString
  else if (c =? underscore)%N then AnyChar
  else Literal c.

(** [q] has no backslash. *)
Definition escape_free (q : str) : bool :=
  forallb (λ c, negb (c =? backslash)%N) q.

(** The characters of [s] beyond the [n]-th, if any, are spaces. *)
Definition spaces_beyond (n : nat) (s : str) : bool :=
  forallb (N.eqb space) (drop n s).

(** The columns take the values of the body, cut to their widths if need
    be: what is beyond the width of title, work and status is spaces. *)
Definition columns_take (c : PlotBase) : bool :=
  spaces_beyond 200 (title c) && spaces_beyond 100 (work c)
  && spaces_beyond 50 (status c).

(** The body with title, work and status cut to the widths of their
    columns. *)
Definition cut (c : PlotBase) : PlotBase :=
  mkPlotBase (take 200 (title c)) (take 100 (work c)) (take 50 (status c))
    (summary c).

(** * Properties *)

(** ** The monad *)

Lemma bind_Return {A B} (m : M A) (k : A → M B) w a w' :
  m w = (Return a, w') → bind m k w = k a w'.
Proof. intros H. unfold bind. by rewrite H. Qed.

Lemma bind_Raise {A B} (m : M A) (k : A → M B) w e w' :
  m w = (Raise e, w') → bind m k w = (Raise e, w').
Proof. intros H. unfold bind. by rewrite H. Qed.

(** ** Sessions other than the one a computation works in are left alone *)

Create HintDb confined.

Section Confined.
Context (db : nat).

Lemma confined_ret {A} (a : A) : confined db (ret a).
Proof. by intros w. Qed.

Lemma confined_raise {A} e : confined db (@raise A e).
Proof. by intros w. Qed.

Lemma confined_bind {A B} (m : M A) (k : A → M B) :
  confined db m → (∀ a, confined db (k a)) → confined db (bind m k).
Proof.
  intros Hm Hk w. unfold bind. specialize (Hm w).
  destruct (m w) as [[a|e] w1]; simpl in *; [|done].
  by rewrite Hk.
Qed.

Lemma confined_modify (f : World → World) :
  (∀ w, sessions (f w) = sessions w) → confined db (modify f).
Proof. intros Hf w. simpl. by rewrite Hf. Qed.

Lemma confined_get_world : confined db get_world.
Proof. by intros w. Qed.

Lemma confined_for_each {A} (f : A → M unit) l :
  (∀ x, confined db (f x)) → confined db (for_each f l).
Proof.
  intros Hf. induction l as [|x l IH]; simpl.
  - apply confined_ret.
  - apply confined_bind; auto.
Qed.

Lemma confined_map_m {A B} (f : A → M B) l :
  (∀ x, confined db (f x)) → confined db (map_m f l).
Proof.
  intros Hf. induction l as [|x l IH]; simpl.
  - apply confined_ret.
  - apply confined_bind; [auto|]. intros y.
    apply confined_bind; [auto|]. intros ys. apply confined_ret.
Qed.

Lemma confined_update_uow f : confined db (update_uow db f).
Proof. intros w. simpl. by rewrite delete_insert_eq. Qed.

Lemma confined_getobj plot : confined db (getobj plot).
Proof. intros w. unfold getobj. by destruct (objects w !! plot). Qed.

Lemma confined_alloc o : confined db (alloc o).
Proof. by intros w. Qed.

Lemma confined_run_select query : confined db (run_select query).
Proof. intros w. unfold run_select. by destruct (select query w). Qed.
End Confined.

#[local] Hint Resolve confined_ret confined_raise confined_modify
  confined_get_world confined_update_uow confined_getobj confined_alloc
  confined_run_select : confined.

Ltac confined_step :=
  lazymatch goal with
  | |- confined _ (bind _ _) => apply confined_bind; [|intros ?]
  | |- confined _ (for_each _ _) => apply confined_for_each; intros ?
  | |- confined _ (map_m _ _) => apply confined_map_m; intros ?
  | |- confined _ (match ?x with _ => _ end) => destruct x
  | |- confined _ (if ?b then _ else _) => destruct b
  | |- _ => solve [eauto with confined]
  end.

Ltac confined_auto := repeat confined_step.

Section ConfinedOps.
Context (db : nat).

Lemma confined_setattr plot set : confined db (setattr plot set).
Proof. unfold setattr. confined_auto. Qed.

Lemma confined_load r : confined db (load db r).
Proof. unfold load. confined_auto. Qed.

Lemma confined_to_PlotRead plot : confined db (to_PlotRead plot).
Proof. unfold to_PlotRead. confined_auto. Qed.

Lemma confined_name_ locals x : confined db (name_ locals x).
Proof. unfold name_. confined_auto. Qed.
End ConfinedOps.

#[local] Hint Resolve confined_setattr confined_load confined_to_PlotRead
  confined_name_ : confined.

Section ConfinedSession.
Context (db : nat).

Lemma confined_all_ query : query_session query = db → confined db (all_ query).
Proof. intros <-. unfold all_. confined_auto. Qed.

Lemma confined_first query : query_session query = db → confined db (first query).
Proof. intros <-. unfold first. confined_auto. Qed.

Lemma confined_flush_insert plot : confined db (flush_insert plot).
Proof. unfold flush_insert. confined_auto. Qed.

Lemma confined_flush_update plot : confined db (flush_update plot).
Proof. unfold flush_update. confined_auto. Qed.

Lemma confined_flush_delete plot : confined db (flush_delete plot).
Proof. unfold flush_delete. confined_auto. Qed.

Lemma confined_flush : confined db (flush db).
Proof.
  unfold flush.
  repeat first [ apply confined_flush_insert | apply confined_flush_update
               | apply confined_flush_delete | confined_step ].
Qed.

Lemma confined_db_commit : confined db (db_commit db).
Proof.
  intros w. unfold db_commit. pose proof (confined_flush w) as H.
  by destruct (flush db w) as [[[]|e] w'].
Qed.

Lemma confined_db_refresh plot : confined db (db_refresh db plot).
Proof. unfold db_refresh. confined_auto. Qed.

Lemma confined_db_add plot : confined db (db_add db plot).
Proof. apply confined_update_uow. Qed.

Lemma confined_db_delete plot : confined db (db_delete db plot).
Proof. apply confined_update_uow. Qed.
End ConfinedSession.

#[local] Hint Resolve confined_db_commit confined_db_refresh confined_db_add
  confined_db_delete : confined.
#[local] Hint Extern 1 (confined _ (first _)) => (apply confined_first; reflexivity) : confined.
#[local] Hint Extern 1 (confined _ (all_ _)) => (apply confined_all_; reflexivity) : confined.

Section ConfinedEndpoints.
Context (db : nat).

Lemma confined_list_plots work status q : confined db (list_plots work status q db).
Proof.
  unfold list_plots. apply confined_bind; [|intros; apply confined_ret].
  apply confined_all_.
  by destruct work as [[]|], status as [[]|], q as [[]|].
Qed.

Lemma confined_get_plot plot_id : confined db (get_plot plot_id db).
Proof. unfold get_plot. confined_auto. Qed.

Lemma confined_create_plot data : confined db (create_plot data db).
Proof. unfold create_plot, new_PlotModel. confined_auto. Qed.

Lemma confined_update_plot plot_id data : confined db (update_plot plot_id data db).
Proof. unfold update_plot. confined_auto. Qed.

Lemma confined_delete_plot plot_id : confined db (delete_plot plot_id db).
Proof. unfold delete_plot. confined_auto. Qed.
End ConfinedEndpoints.

#[local] Hint Resolve confined_list_plots confined_get_plot confined_create_plot
  confined_update_plot confined_delete_plot : confined.

(** Whatever FastAPI does with the session inside [get_db], the sessions
    that are open afterwards are those that were open before. *)
Lemma get_db_releases {A} (yield_ : nat → M A) w :
  (∀ db, confined db (yield_ db)) →
  sessions (get_db yield_ w).2 = sessions w.
Proof.
  intros Hy. unfold get_db, bind, SessionLocal, try_finally.
  set (db := fresh (dom (sessions w))).
  specialize (Hy db (with_sessions (<[db:=uow_empty]> (sessions w)) w)).
  destruct (yield_ db _) as [r w1]. simpl in *.
  rewrite Hy, delete_insert_id; [done|].
  apply not_elem_of_dom, is_fresh.
Qed.

Lemma get_db_run {A} (yield_ : nat → M A) w r w1 :
  let db := fresh (dom (sessions w)) in
  yield_ db (with_sessions (<[db:=uow_empty]> (sessions w)) w) = (r, w1) →
  get_db yield_ w = (r, with_sessions (delete db (sessions w1)) w1).
Proof.
  intros db H. unfold get_db, bind, SessionLocal, try_finally.
  fold db. by rewrite H.
Qed.

(** ** Queries *)

Lemma select_where_filter (cs : list Cond) (f : Row → bool) rows :
  (∀ r, where_holds cs r = Return (f r)) →
  select_where cs rows = Return (filter (λ r, f r = true) rows).
Proof.
  intros Hf. induction rows as [|r rows IH]; [done|].
  simpl. rewrite Hf, IH, filter_cons.
  destruct (f r); by rewrite ?decide_True, ?decide_False by done.
Qed.

(** The rows of a table whose key is [n]: at most one. *)
Lemma filter_key_map_to_list (t : gmap Z PlotBase) n :
  filter (λ r : Row, Z.eqb r.1 n = true) (map_to_list t)
  = match t !! n with Some c => [(n, c)] | None => [] end.
Proof.
  induction t as [|k c t Hk Hfresh IH] using map_first_key_ind.
  - by rewrite map_to_list_empty.
  - rewrite map_to_list_insert_first_key by done.
    rewrite filter_cons. simpl. destruct (decide (k = n)) as [->|Hne].
    + rewrite decide_True by apply Z.eqb_refl.
      rewrite lookup_insert_eq. rewrite Hk in IH. f_equal. exact IH.
    + rewrite decide_False by (by intros ?%Z.eqb_eq).
      rewrite lookup_insert_ne by done. exact IH.
Qed.

Lemma select_by_id db n w :
  select (filter_ (eq_int PlotModel_id n) (db_query db)) w
  = Return (match plots w !! n with Some c => [(n, c)] | None => [] end).
Proof.
  unfold select. simpl.
  rewrite (select_where_filter _ (λ r, Z.eqb r.1 n)).
  - by rewrite filter_key_map_to_list.
  - intros r. simpl. by destruct (r.1 =? n).
Qed.

(** [query.filter(PlotModel.id == n).first()] *)
Lemma first_by_id db n w :
  first (filter_ (eq_int PlotModel_id n) (db_query db)) w
  = match plots w !! n with
    | None => (Return None, w)
    | Some c => (let! plot := load db (n, c) in ret (Some plot)) w
    end.
Proof.
  unfold first, run_select, bind at 1. rewrite select_by_id.
  by destruct (plots w !! n).
Qed.

(** ** Unknown ids *)

Lemma lookup_by_id_absent {A} db n (k : nat → M A) e w :
  plots w !! n = None →
  (let! plot := first (filter_ (eq_int PlotModel_id n) (db_query db)) in
   match plot with
   | None => raise e
   | Some plot => k plot
   end) w = (Raise e, w).
Proof.
  intros H. unfold bind. by rewrite first_by_id, H.
Qed.

Lemma GET_plot_absent w n :
  plots w !! n = None → (app (GET_plot n) w).1 = NotFound.
Proof.
  intros H. unfold app. erewrite get_db_run; [done|]. simpl.
  unfold get_plot. erewrite bind_Raise; [done|].
  by apply lookup_by_id_absent.
Qed.

Lemma PUT_plot_absent w n data :
  plots w !! n = None → (app (PUT_plot n data) w).1 = NotFound.
Proof.
  intros H. unfold app. erewrite get_db_run; [done|]. simpl.
  unfold update_plot. erewrite bind_Raise; [done|].
  by apply lookup_by_id_absent.
Qed.

Lemma DELETE_plot_absent w n :
  plots w !! n = None → (app (DELETE_plot n) w).1 = NotFound.
Proof.
  intros H. unfold app. erewrite get_db_run; [done|]. simpl.
  unfold delete_plot. erewrite bind_Raise; [done|].
  by apply lookup_by_id_absent.
Qed.

(** ** Columns *)

Lemma varchar_within n s : (length s <=? n)%nat = true → varchar n s = Return s.
Proof. intros H. unfold varchar. by rewrite H. Qed.

Lemma storable_insert data :
  storable data = true →
  forallb bindable (binds data) = true ∧ insert_columns data = Return data.
Proof.
  unfold storable, within_widths. rewrite !andb_true_iff.
  intros (Hb & (Ht & Hw) & Hs). split; [done|].
  unfold insert_columns. rewrite !varchar_within by done. by destruct data.
Qed.

Lemma storable_update row data :
  storable data = true →
  forallb bindable (update_binds row data) = true
  ∧ update_columns row data = Return data.
Proof.
  unfold storable, within_widths. rewrite !andb_true_iff.
  intros (Hb & (Ht & Hw) & Hs). split.
  - unfold binds in Hb. cbn [forallb app] in Hb.
    apply andb_true_iff in Hb as [Hbt Hb]. apply andb_true_iff in Hb as [Hbw Hb].
    apply andb_true_iff in Hb as [Hbs Hb].
    unfold update_binds. rewrite !forallb_app.
    repeat (apply andb_true_iff; split);
      destruct (decide _); simpl; rewrite ?Hbt, ?Hbw, ?Hbs; done.
  - unfold update_columns. rewrite !varchar_within by done.
    destruct data as [ti wo st su], row as [ti' wo' st' su']. simpl.
    by repeat (destruct (decide _) as [->|?]).
Qed.

(** ** One instance in one session: how each call moves the world

    The handlers for a single plot work on the instance they have just
    loaded or made, which is the last object of the heap, in the session
    that [get_db] has opened for them. *)

Section Run.
Context (t : gmap Z PlotBase) (s : Z) (h : list PlotModel)
        (ss : gmap nat UnitOfWork) (db : nat).

Lemma getobj_last o u :
  getobj (length h) (mkWorld t s (h ++ [o]) (<[db:=u]> ss))
  = (Return o, mkWorld t s (h ++ [o]) (<[db:=u]> ss)).
Proof.
  unfold getobj. simpl. by rewrite list_lookup_middle.
Qed.

Lemma setattr_last o u set :
  setattr (length h) set (mkWorld t s (h ++ [o]) (<[db:=u]> ss))
  = (Return tt, mkWorld t s (h ++ [set o]) (<[db:=u]> ss)).
Proof.
  unfold setattr. erewrite bind_Return by apply getobj_last.
  unfold modify, with_objects. simpl. f_equal. f_equal.
  rewrite insert_app_r_alt by done. by rewrite Nat.sub_diag.
Qed.

Lemma update_uow_run h' u f :
  update_uow db f (mkWorld t s h' (<[db:=u]> ss))
  = (Return tt, mkWorld t s h' (<[db:=f u]> ss)).
Proof.
  unfold update_uow, modify, with_sessions, session_uow. simpl.
  by rewrite lookup_insert_eq, insert_insert_eq.
Qed.

Lemma load_run r u :
  load db r (mkWorld t s h (<[db:=u]> ss))
  = (Return (length h),
     mkWorld t s (h ++ [mkPlotModel (Some r.1) r.2])
       (<[db:=mkUnitOfWork (uow_new u) (uow_identity u ++ [length h]) (uow_deleted u)]> ss)).
Proof.
  unfold load. unfold bind at 1, alloc, with_objects. simpl.
  by erewrite bind_Return by apply update_uow_run.
Qed.

Lemma first_by_id_present n c u :
  t !! n = Some c →
  first (filter_ (eq_int PlotModel_id n) (db_query db))
    (mkWorld t s h (<[db:=u]> ss))
  = (Return (Some (length h)),
     mkWorld t s (h ++ [mkPlotModel (Some n) c])
       (<[db:=mkUnitOfWork (uow_new u) (uow_identity u ++ [length h]) (uow_deleted u)]> ss)).
Proof.
  intros H. rewrite first_by_id. simpl. rewrite H.
  by erewrite bind_Return by apply load_run.
Qed.

Lemma to_PlotRead_last k c u :
  to_PlotRead (length h) (mkWorld t s (h ++ [mkPlotModel (Some k) c]) (<[db:=u]> ss))
  = (Return (mkPlotRead k c),
     mkWorld t s (h ++ [mkPlotModel (Some k) c]) (<[db:=u]> ss)).
Proof.
  unfold to_PlotRead. by erewrite bind_Return by apply getobj_last.
Qed.

Lemma db_refresh_last k c row u :
  t !! k = Some row →
  db_refresh db (length h) (mkWorld t s (h ++ [mkPlotModel (Some k) c]) (<[db:=u]> ss))
  = (Return tt, mkWorld t s (h ++ [mkPlotModel (Some k) row]) (<[db:=u]> ss)).
Proof.
  intros H. unfold db_refresh.
  erewrite bind_Return by apply getobj_last.
  unfold bind, get_world. simpl. rewrite H.
  apply setattr_last.
Qed.
End Run.

Lemma bind_ret {A B} (a : A) (k : A → M B) w : bind (ret a) k w = k a w.
Proof. done. Qed.

Lemma bind_get_world {B} (k : World → M B) w : bind get_world k w = k w w.
Proof. done. Qed.

Lemma bind_assoc {A B C} (m : M A) (k : A → M B) (k' : B → M C) w :
  bind (bind m k) k' w = bind m (λ a, bind (k a) k') w.
Proof. unfold bind. by destruct (m w) as [[a|e] w']. Qed.

Section Commit.
Context (t : gmap Z PlotBase) (s : Z) (h : list PlotModel)
        (ss : gmap nat UnitOfWork) (db : nat).

Lemma flush_run u w1 u1 :
  let w := mkWorld t s h (<[db:=u]> ss) in
  (do! for_each flush_insert (uow_new u) in
   do! for_each flush_update
         (filter (λ plot, plot ∉ uow_deleted u) (uow_identity u)) in
   for_each flush_delete (uow_deleted u)) w = (Return tt, w1) →
  sessions w1 = <[db:=u1]> ss →
  db_commit db w
  = (Return tt,
     mkWorld (plots w1) (plots_id_seq w1) (objects w1)
       (<[db:=mkUnitOfWork []
                (filter (λ plot, plot ∉ uow_deleted u1) (uow_identity u1)
                 ++ uow_new u1) []]> ss)).
Proof.
  intros w H Hs. unfold db_commit, flush.
  rewrite bind_get_world.
  unfold session_uow. subst w. cbn [sessions].
  rewrite lookup_insert_eq. cbv [from_option Datatypes.id].
  unfold bind in H |- *.
  destruct (for_each flush_insert _ _) as [[[]|e] wa]; [|done].
  destruct (for_each flush_update _ _) as [[[]|e] wb]; [|done].
  rewrite H. destruct w1 as [t1 s1 h1 ss1]. simpl in Hs. subst ss1.
  by rewrite update_uow_run.
Qed.
End Commit.

Section CommitOne.
Context (t : gmap Z PlotBase) (s : Z) (h : list PlotModel)
        (ss : gmap nat UnitOfWork) (db : nat).

Lemma flush_update_last n old data u :
  t !! n = Some old →
  storable data = true →
  flush_update (length h)
    (mkWorld t s (h ++ [mkPlotModel (Some n) data]) (<[db:=u]> ss))
  = (Return tt,
     mkWorld (<[n:=data]> t) s (h ++ [mkPlotModel (Some n) data]) (<[db:=u]> ss)).
Proof.
  intros Hn Hfit. unfold flush_update.
  erewrite bind_Return by apply getobj_last.
  rewrite bind_get_world. cbn [pk columns plots]. rewrite Hn.
  destruct (decide (old = data)) as [->|Hne].
  - rewrite (insert_id _ _ _ Hn). reflexivity.
  - destruct (storable_update old data Hfit) as [-> ->]. reflexivity.
Qed.

Lemma flush_delete_last n c u :
  t !! n = Some c →
  flush_delete (length h)
    (mkWorld t s (h ++ [mkPlotModel (Some n) c]) (<[db:=u]> ss))
  = (Return tt,
     mkWorld (delete n t) s (h ++ [mkPlotModel (Some n) c]) (<[db:=u]> ss)).
Proof.
  intros Hn. unfold flush_delete.
  erewrite bind_Return by apply getobj_last.
  rewrite bind_get_world. simpl. by rewrite Hn.
Qed.

Lemma flush_insert_last data u :
  storable data = true →
  t !! (s + 1) = None →
  flush_insert (length h)
    (mkWorld t s (h ++ [mkPlotModel None data]) (<[db:=u]> ss))
  = (Return tt,
     mkWorld (<[s + 1:=data]> t) (s + 1)
       (h ++ [mkPlotModel (Some (s + 1)) data]) (<[db:=u]> ss)).
Proof.
  intros Hfit Hfree. unfold flush_insert.
  erewrite bind_Return by apply getobj_last.
  cbn [columns]. destruct (storable_insert data Hfit) as [-> ->].
  rewrite bind_get_world. simpl.
  unfold bind at 1, modify at 1, with_seq. simpl. rewrite Hfree.
  unfold bind at 1, modify at 1, with_plots. simpl.
  apply setattr_last.
Qed.

(** The UPDATE that a commit sends for a loaded and modified instance. *)
Lemma db_commit_update n old data :
  t !! n = Some old →
  storable data = true →
  db_commit db
    (mkWorld t s (h ++ [mkPlotModel (Some n) data])
       (<[db:=mkUnitOfWork [] [length h] []]> ss))
  = (Return tt,
     mkWorld (<[n:=data]> t) s (h ++ [mkPlotModel (Some n) data])
       (<[db:=mkUnitOfWork [] [length h] []]> ss)).
Proof.
  intros Hn Hfit.
  rewrite (flush_run _ _ _ _ _ _
    (mkWorld (<[n:=data]> t) s (h ++ [mkPlotModel (Some n) data])
       (<[db:=mkUnitOfWork [] [length h] []]> ss))
    (mkUnitOfWork [] [length h] [])); [done| |done].
  simpl. rewrite bind_ret. erewrite bind_Return; [done|].
  erewrite bind_Return by by eapply flush_update_last. done.
Qed.

(** The DELETE that a commit sends for an instance given to [db.delete]. *)
Lemma db_commit_delete n c :
  t !! n = Some c →
  db_commit db
    (mkWorld t s (h ++ [mkPlotModel (Some n) c])
       (<[db:=mkUnitOfWork [] [length h] [length h]]> ss))
  = (Return tt,
     mkWorld (delete n t) s (h ++ [mkPlotModel (Some n) c])
       (<[db:=uow_empty]> ss)).
Proof.
  intros Hn.
  assert (Hf : filter (λ plot, plot ∉ [length h]) [length h] = []).
  { rewrite filter_cons, decide_False; [done|].
    intros Hx. apply Hx, list_elem_of_here. }
  rewrite (flush_run _ _ _ _ _ _
    (mkWorld (delete n t) s (h ++ [mkPlotModel (Some n) c])
       (<[db:=mkUnitOfWork [] [length h] [length h]]> ss))
    (mkUnitOfWork [] [length h] [length h]));
    cbn [uow_new uow_identity uow_deleted plots plots_id_seq objects sessions].
  - by rewrite Hf.
  - rewrite Hf. cbn [for_each]. rewrite !bind_ret.
    erewrite bind_Return by by eapply flush_delete_last. done.
  - done.
Qed.

(** The INSERT that a commit sends for an added instance. *)
Lemma db_commit_insert data :
  storable data = true →
  t !! (s + 1) = None →
  db_commit db
    (mkWorld t s (h ++ [mkPlotModel None data])
       (<[db:=mkUnitOfWork [length h] [] []]> ss))
  = (Return tt,
     mkWorld (<[s + 1:=data]> t) (s + 1) (h ++ [mkPlotModel (Some (s + 1)) data])
       (<[db:=mkUnitOfWork [] [length h] []]> ss)).
Proof.
  intros Hfit Hfree.
  rewrite (flush_run _ _ _ _ _ _
    (mkWorld (<[s + 1:=data]> t) (s + 1) (h ++ [mkPlotModel (Some (s + 1)) data])
       (<[db:=mkUnitOfWork [length h] [] []]> ss))
    (mkUnitOfWork [length h] [] [])); [done| |done].
  simpl. erewrite bind_Return; [done|].
  erewrite bind_Return by by eapply flush_insert_last. done.
Qed.
End CommitOne.

(** ** The endpoints for one plot, inside the session of the request *)

Section Endpoints.
Context (t : gmap Z PlotBase) (s : Z) (h : list PlotModel)
        (ss : gmap nat UnitOfWork) (db : nat).

Lemma get_plot_run n c :
  t !! n = Some c →
  get_plot n db (mkWorld t s h (<[db:=uow_empty]> ss))
  = (Return (length h),
     mkWorld t s (h ++ [mkPlotModel (Some n) c])
       (<[db:=mkUnitOfWork [] [length h] []]> ss)).
Proof.
  intros Hn. unfold get_plot.
  by erewrite bind_Return by by eapply first_by_id_present.
Qed.

Lemma update_plot_run n old data :
  t !! n = Some old →
  storable data = true →
  update_plot n data db (mkWorld t s h (<[db:=uow_empty]> ss))
  = (Return (length h),
     mkWorld (<[n:=data]> t) s (h ++ [mkPlotModel (Some n) data])
       (<[db:=mkUnitOfWork [] [length h] []]> ss)).
Proof.
  intros Hn Hfit. unfold update_plot. destruct data as [ti wo st su].
  erewrite bind_Return by by eapply first_by_id_present.
  cbv beta iota.
  do 4 (erewrite bind_Return by apply setattr_last).
  cbn [set_title set_work set_status set_summary pk columns title work
       status summary uow_new uow_identity uow_deleted uow_empty app].
  erewrite bind_Return by by eapply db_commit_update.
  erewrite bind_Return by (apply db_refresh_last, lookup_insert_eq).
  done.
Qed.

Lemma delete_plot_run n c :
  t !! n = Some c →
  delete_plot n db (mkWorld t s h (<[db:=uow_empty]> ss))
  = (Return [("message", JStr "deleted"); ("id", JInt n)],
     mkWorld (delete n t) s (h ++ [mkPlotModel (Some n) c])
       (<[db:=uow_empty]> ss)).
Proof.
  intros Hn. unfold delete_plot.
  erewrite bind_Return by by eapply first_by_id_present.
  cbv beta iota. unfold db_delete. erewrite bind_Return by apply update_uow_run.
  cbn [uow_new uow_identity uow_deleted uow_empty app].
  erewrite bind_Return by by eapply db_commit_delete.
  done.
Qed.

Lemma name_plotF plot : name_ [("plot", plot)] "plotF" = raise (NameError "plotF").
Proof. reflexivity. Qed.

Lemma create_plot_run data :
  storable data = true →
  t !! (s + 1) = None →
  create_plot data db (mkWorld t s h (<[db:=uow_empty]> ss))
  = (Raise (NameError "plotF"),
     mkWorld (<[s + 1:=data]> t) (s + 1)
       (h ++ [mkPlotModel (Some (s + 1)) data])
       (<[db:=mkUnitOfWork [] [length h] []]> ss)).
Proof.
  intros Hfit Hfree. unfold create_plot, new_PlotModel. destruct data as [ti wo st su].
  cbn [title work status summary].
  unfold bind at 1, alloc at 1, with_objects.
  cbn [objects plots plots_id_seq sessions].
  unfold db_add. erewrite bind_Return by apply update_uow_run.
  cbn [uow_new uow_identity uow_deleted uow_empty app].
  erewrite bind_Return by by eapply db_commit_insert.
  erewrite bind_Return by (apply db_refresh_last, lookup_insert_eq).
  by rewrite name_plotF.
Qed.
End Endpoints.

(** ** The requests for one plot *)

Lemma GET_plot_run w n c :
  plots w !! n = Some c →
  ∃ w', app (GET_plot n) w = (Return (RespPlot (mkPlotRead n c)), w')
        ∧ plots w' = plots w.
Proof.
  intros Hn. destruct w as [t s h ss]. eexists. unfold app.
  erewrite get_db_run; [split; [reflexivity|]|].
  2:{ cbn [with_sessions plots plots_id_seq objects sessions].
      erewrite bind_Return by by eapply get_plot_run.
      erewrite bind_Return by apply to_PlotRead_last.
      reflexivity. }
  done.
Qed.

Lemma PUT_plot_run w n old data :
  plots w !! n = Some old →
  storable data = true →
  ∃ w', app (PUT_plot n data) w = (Return (RespPlot (mkPlotRead n data)), w')
        ∧ plots w' = <[n:=data]> (plots w).
Proof.
  intros Hn Hfit. destruct w as [t s h ss]. eexists. unfold app.
  erewrite get_db_run; [split; [reflexivity|]|].
  2:{ cbn [with_sessions plots plots_id_seq objects sessions].
      erewrite bind_Return by by eapply update_plot_run.
      erewrite bind_Return by apply to_PlotRead_last.
      reflexivity. }
  done.
Qed.

Lemma DELETE_plot_run w n c :
  plots w !! n = Some c →
  ∃ w', app (DELETE_plot n) w
        = (Return (RespDict [("message", JStr "deleted"); ("id", JInt n)]), w')
        ∧ plots w' = delete n (plots w).
Proof.
  intros Hn. destruct w as [t s h ss]. eexists. unfold app.
  erewrite get_db_run; [split; [reflexivity|]|].
  2:{ cbn [with_sessions plots plots_id_seq objects sessions].
      erewrite bind_Return by by eapply delete_plot_run.
      reflexivity. }
  done.
Qed.

Lemma POST_plots_run w data :
  storable data = true →
  plots w !! (plots_id_seq w + 1) = None →
  ∃ w', app (POST_plots data) w = (Raise (NameError "plotF"), w')
        ∧ plots w' = <[plots_id_seq w + 1:=data]> (plots w)
        ∧ plots_id_seq w' = plots_id_seq w + 1.
Proof.
  intros Hfit Hfree. destruct w as [t s h ss]. eexists. unfold app.
  erewrite get_db_run; [split; [reflexivity|]|].
  2:{ cbn [with_sessions plots plots_id_seq objects sessions].
      erewrite bind_Raise by by eapply create_plot_run.
      reflexivity. }
  done.
Qed.

(** C5, as the code has it. For a stored plot with id [n] and a request
    body that the database takes as it is — its strings have no U+0000 and
    no surrogate, and title, work and status have at most 200, 100 and 50
    characters — Update plot returns the record with id [n] and the four
    fields of the body, and the table afterwards is the table before with
    row [n] replaced by exactly those four values (a null summary
    included); no other row changes. *)
Theorem update_replaces_all_fields (w : World) (n : Z) (old data : PlotCreate) :
  plots w !! n = Some old →
  storable data = true →
  let (r, w') := app (PUT_plot n data) w in
  r = Return (RespPlot (mkPlotRead n data))
  ∧ plots w' !! n = Some data
  ∧ plots w' = <[n:=data]> (plots w).
Proof.
  intros Hn Hfit.
  destruct (PUT_plot_run w n old data Hn Hfit) as (w' & -> & Ht).
  rewrite Ht. split; [done|]. split; [apply lookup_insert_eq|done].
Qed.

(** C7. For a stored plot with id [n], Delete plot returns
    [{"message": "deleted", "id": n}], the table afterwards is the table
    before without row [n] and otherwise the same, and Get plot by id on [n]
    then ends with NotFound (404). *)
Theorem delete_then_get_NotFound (w : World) (n : Z) (c : PlotBase) :
  plots w !! n = Some c →
  let (r, w') := app (DELETE_plot n) w in
  r = Return (RespDict [("message", JStr "deleted"); ("id", JInt n)])
  ∧ plots w' = delete n (plots w)
  ∧ (app (GET_plot n) w').1 = NotFound
  ∧ http_status (app (GET_plot n) w').1 = 404.
Proof.
  intros Hn.
  destruct (DELETE_plot_run w n c Hn) as (w' & -> & Ht).
  assert (Hgone : plots w' !! n = None) by (rewrite Ht; apply lookup_delete_eq).
  by rewrite (GET_plot_absent w' n Hgone).
Qed.

(** C4. When no row has the id, Get plot by id, Update plot and Delete plot
    each end with the HTTPException of status 404 and detail
    "Plot not found" — the NotFound error — and so with no other error. *)
Theorem unknown_id_NotFound (w : World) (n : Z) (data : PlotCreate) :
  plots w !! n = None →
  (app (GET_plot n) w).1 = NotFound
  ∧ (app (PUT_plot n data) w).1 = NotFound
  ∧ (app (DELETE_plot n) w).1 = NotFound
  ∧ NotFound = Raise (HTTPException 404 "Plot not found")
  ∧ http_status NotFound = 404.
Proof.
  intros H.
  rewrite GET_plot_absent, PUT_plot_absent, DELETE_plot_absent by done.
  done.
Qed.

(** ** Create plot *)

Lemma get_db_result {A} (yield_ : nat → M A) w :
  let db := fresh (dom (sessions w)) in
  (get_db yield_ w).1
  = (yield_ db (with_sessions (<[db:=uow_empty]> (sessions w)) w)).1.
Proof.
  intros db.
  destruct (yield_ db (with_sessions (<[db:=uow_empty]> (sessions w)) w))
    as [r w1] eqn:E.
  by rewrite (get_db_run _ _ _ _ E).
Qed.

Lemma always_raises_bind_l {A B} (m : M A) (k : A → M B) :
  always_raises m → always_raises (bind m k).
Proof.
  intros Hm w. destruct (Hm w) as [e He]. exists e. unfold bind.
  destruct (m w) as [[a|e'] w']; simpl in *; congruence.
Qed.

Lemma always_raises_bind_r {A B} (m : M A) (k : A → M B) :
  (∀ a, always_raises (k a)) → always_raises (bind m k).
Proof.
  intros Hk w. unfold bind. destruct (m w) as [[a|e] w']; [apply Hk|by exists e].
Qed.

Lemma create_plot_always_raises data db : always_raises (create_plot data db).
Proof.
  unfold create_plot.
  do 4 (apply always_raises_bind_r; intros ?).
  intros w. exists (NameError "plotF"). by rewrite name_plotF.
Qed.

(** C1 (the code departs from it). Create plot returns no record: for every
    request body and every state of the store the request ends with an
    exception. *)
Theorem create_plot_never_returns (data : PlotCreate) (w : World) :
  ∃ e, (app (POST_plots data) w).1 = Raise e.
Proof.
  unfold app. rewrite get_db_result.
  apply always_raises_bind_l, create_plot_always_raises.
Qed.

(** C6 (the code departs from it). For a body that the database takes as it
    is (no U+0000, no surrogate, title, work and status within 200, 100 and
    50 characters), in a store where the next value of the sequence is not
    yet a key, Create plot inserts the row under that key and then ends with
    [NameError: name 'plotF' is not defined], an internal server error: the
    caller gets neither the id nor the record, although Get plot by id on
    the new key finds the submitted fields. *)
Theorem create_then_get (w : World) (data : PlotCreate) :
  storable data = true →
  plots w !! (plots_id_seq w + 1) = None →
  let (r, w') := app (POST_plots data) w in
  let n := plots_id_seq w + 1 in
  r = Raise (NameError "plotF")
  ∧ http_status r = 500
  ∧ plots w' = <[n:=data]> (plots w)
  ∧ (app (GET_plot n) w').1 = Return (RespPlot (mkPlotRead n data)).
Proof.
  intros Hfit Hfree.
  destruct (POST_plots_run w data Hfit Hfree) as (w' & -> & Ht & Hs).
  repeat split; [done|].
  destruct (GET_plot_run w' (plots_id_seq w + 1) data) as (w'' & -> & _); [|done].
  rewrite Ht. apply lookup_insert_eq.
Qed.

(** ** The database handle of a request *)

(** C9. Whatever the request and whatever its outcome (a response, the
    NotFound error or any other exception), the session that [get_db]
    opened for it is closed when the request is over: the open sessions
    are then exactly those that were open before, and the handle taken for
    the request is not among them. *)
Theorem request_releases_session (req : Request) (w : World) :
  let (r, w') := app req w in
  sessions w' = sessions w
  ∧ fresh (dom (sessions w)) ∉ dom (sessions w').
Proof.
  assert (H : sessions (app req w).2 = sessions w).
  { destruct req; unfold app; try (apply get_db_releases; intros db).
    - done.
    - confined_auto.
    - confined_auto.
    - confined_auto.
    - confined_auto.
    - confined_auto. }
  destruct (app req w) as [r w']. simpl in H. rewrite H.
  split; [done|]. apply is_fresh.
Qed.

Lemma session_closed_again w :
  let db := fresh (dom (sessions w)) in
  with_sessions
    (delete db (sessions (with_sessions (<[db:=uow_empty]> (sessions w)) w)))
    (with_sessions (<[db:=uow_empty]> (sessions w)) w) = w.
Proof.
  intros db. destruct w as [t s h ss]. unfold with_sessions. simpl.
  f_equal. apply delete_insert_id, not_elem_of_dom, is_fresh.
Qed.

(** ** Search patterns *)

Lemma prefixb_spec q s : prefixb q s = true ↔ ∃ post, s = q ++ post.
Proof.
  revert s. induction q as [|c q IH]; intros s; simpl.
  - split; [by exists s|done].
  - destruct s as [|d s].
    + split; [done|]. by intros [post ?].
    + rewrite andb_true_iff, IH. split.
      * intros [Hc [post ->]]. apply N.eqb_eq in Hc as ->. by exists post.
      * intros [post [= -> ->]]. split; [apply N.eqb_refl|by exists post].
Qed.

Lemma substringb_spec q s :
  substringb q s = true ↔ ∃ pre post, s = pre ++ q ++ post.
Proof.
  induction s as [|d s IH]; simpl; rewrite orb_true_iff, prefixb_spec.
  - split.
    + intros [[post ->]|?]; [|done]. by exists [], post.
    + intros (pre & post & H). left.
      destruct pre; [by exists post|done].
  - rewrite IH. split.
    + intros [[post ->]|(pre & post & ->)]; [by exists [], post|].
      by exists (d :: pre), post.
    + intros (pre & post & H). destruct pre as [|d' pre]; simpl in H.
      * left. by exists post.
      * right. injection H as -> ->. by exists pre, post.
Qed.

Lemma like_parse_cons c p :
  like_parse (c :: p)
  = if (c =? backslash)%N then
      match p with
      | [] => None
      | d :: p'' => option_map (cons (Literal d)) (like_parse p'')
      end
    else if (c =? percent)%N then option_map (cons AnyString) (like_parse p)
    else if (c =? underscore)%N then option_map (cons AnyChar) (like_parse p)
    else option_map (cons (Literal c)) (like_parse p).
Proof. by destruct p. Qed.

Lemma like_parse_ends_percent l : is_Some (like_parse (l ++ [percent])).
Proof.
  assert (H : ∀ n l, (length l ≤ n)%nat → is_Some (like_parse (l ++ [percent]))).
  { clear l. induction n as [|n IH]; intros [|c l] Hlen; simpl in Hlen; try lia;
      try by eexists.
    change ((c :: l) ++ [percent]) with (c :: (l ++ [percent])).
    rewrite like_parse_cons.
    destruct (IH l ltac:(lia)) as [x Hx].
    destruct (c =? backslash)%N.
    - destruct l as [|d l]; [by eexists|].
      change ((d :: l) ++ [percent]) with (d :: (l ++ [percent])). cbv iota.
      destruct (IH l ltac:(simpl in Hlen; lia)) as [y ->]. by eexists.
    - rewrite Hx. destruct (c =? percent)%N, (c =? underscore)%N; by eexists. }
  by apply (H (length l)).
Qed.

Lemma like_parse_meta_free q rest :
  meta_free q = true →
  like_parse (q ++ rest)
  = option_map (λ items, (Literal <$> q) ++ items) (like_parse rest).
Proof.
  induction q as [|c q IH]; intros H.
  - simpl. by destruct (like_parse rest).
  - unfold meta_free in H. cbn [forallb] in H.
    apply andb_true_iff in H as [Hc Hq]. apply negb_true_iff in Hc.
    unfold is_meta in Hc. apply orb_false_iff in Hc as [Hc Hb].
    apply orb_false_iff in Hc as [Hp Hu].
    change ((c :: q) ++ rest) with (c :: (q ++ rest)).
    rewrite like_parse_cons, Hb, Hp, Hu, (IH Hq).
    by destruct (like_parse rest).
Qed.

Lemma like_match_skip p c s :
  like_match (AnyString :: p) (c :: s)
  = like_match p (c :: s) || like_match (AnyString :: p) s.
Proof. reflexivity. Qed.

Lemma like_match_skip_nil p :
  like_match (AnyString :: p) [] = like_match p [] || false.
Proof. reflexivity. Qed.

Lemma like_match_any s : like_match [AnyString] s = true.
Proof.
  induction s as [|c s IH]; [done|].
  by rewrite like_match_skip, IH, orb_true_r.
Qed.

Lemma like_match_literals q s :
  like_match ((Literal <$> q) ++ [AnyString]) s = prefixb q s.
Proof.
  revert s. induction q as [|c q IH]; intros s.
  - apply like_match_any.
  - destruct s as [|d s]; [done|]. simpl. by rewrite <- IH.
Qed.

Lemma like_match_contains q s :
  like_match (AnyString :: (Literal <$> q) ++ [AnyString]) s = substringb q s.
Proof.
  induction s as [|d s IH].
  - simpl. rewrite like_match_literals. simpl. by rewrite orb_false_r.
  - rewrite like_match_skip, IH, like_match_literals. done.
Qed.

Lemma lower_percent_eq : lower percent = percent.
Proof. by apply lower_percent. Qed.

Lemma eqb_lower c m : (lower c = m ↔ c = m) → (lower c =? m)%N = (c =? m)%N.
Proof.
  intros H. destruct (N.eqb_spec (lower c) m) as [E|E], (N.eqb_spec c m) as [E'|E'];
    try done.
  - by apply H in E.
  - by apply H in E'.
Qed.

Lemma is_meta_lower c : is_meta (lower c) = is_meta c.
Proof.
  unfold is_meta.
  by rewrite (eqb_lower _ _ (lower_percent c)), (eqb_lower _ _ (lower_underscore c)),
    (eqb_lower _ _ (lower_backslash c)).
Qed.

Lemma meta_free_lower q : meta_free (lower <$> q) = meta_free q.
Proof.
  induction q as [|c q IH]; [done|].
  unfold meta_free in *. rewrite fmap_cons. cbn [forallb]. by rewrite is_meta_lower, IH.
Qed.

Lemma bindable_lower q : bindable (lower <$> q) = bindable q.
Proof.
  induction q as [|c q IH]; [done|].
  unfold bindable in *. rewrite fmap_cons. cbn [forallb]. by rewrite lower_bindable, IH.
Qed.

Lemma lower_pattern v :
  lower <$> ([percent] ++ v ++ [percent]) = percent :: (lower <$> v) ++ [percent].
Proof. rewrite !fmap_app. simpl. by rewrite lower_percent_eq. Qed.

(** For a [q] without [%], [_] and backslash, [ILIKE '%q%'] is containment
    of [q], letter case apart. *)
Lemma ilike_contains q x :
  meta_free q = true →
  like_holds ([percent] ++ q ++ [percent]) (Some x) = Some (contains_ci q x).
Proof.
  intros Hq. unfold like_holds, contains_ci. rewrite lower_pattern.
  rewrite like_parse_cons. change (percent =? backslash)%N with false.
  change (percent =? percent)%N with true. cbv iota.
  rewrite like_parse_meta_free by by rewrite meta_free_lower.
  change (like_parse [percent]) with (Some [AnyString]). cbn [option_map].
  by rewrite like_match_contains.
Qed.

(** ** List plots *)

Lemma sql_true_Some b : sql_true (Some b) = b.
Proof. by destruct b. Qed.

Lemma where_holds_snoc cs c r b v :
  where_holds cs r = Return b →
  cond_holds c r = Return v →
  where_holds (cs ++ [c]) r = Return (b && sql_true v).
Proof.
  revert b. induction cs as [|c' cs IH]; intros b; simpl.
  - intros [= <-] ->. by rewrite andb_true_r.
  - destruct (cond_holds c' r) as [v'|]; [|done].
    destruct (where_holds cs r) as [b'|]; [|done].
    intros [= <-] Hc. rewrite (IH b' eq_refl Hc).
    by rewrite andb_assoc.
Qed.

Lemma query_binds_filter_ c query :
  forallb bindable (query_binds (filter_ c query))
  = forallb bindable (query_binds query) && forallb bindable (cond_binds c).
Proof.
  unfold query_binds, filter_. cbn [query_where].
  rewrite fmap_app, concat_app, forallb_app. simpl. by rewrite app_nil_r.
Qed.

(** One optional filter of [list_plots]. *)
Lemma optional_filter (query : Query) (o : option str) (c : str → Cond)
    (g : str → option bool) r b :
  let query' := match o with
                | Some ((_ :: _) as v) => filter_ (c v) query
                | _ => query
                end in
  where_holds (query_where query) r = Return b →
  (∀ v, cond_holds (c v) r = Return (g v)) →
  where_holds (query_where query') r
  = Return (b && match given o with Some v => sql_true (g v) | None => true end)
  ∧ query_session query' = query_session query
  ∧ query_order_by_id query' = query_order_by_id query.
Proof.
  intros query' Hb Hc. subst query'.
  destruct o as [[|a v]|]; cbn [given]; rewrite ?andb_true_r; try done.
  split; [|done]. by apply where_holds_snoc.
Qed.

Lemma optional_filter_binds (query : Query) (o : option str) (c : str → Cond) :
  let query' := match o with
                | Some ((_ :: _) as v) => filter_ (c v) query
                | _ => query
                end in
  forallb bindable (query_binds query')
  = forallb bindable (query_binds query)
    && match given o with
       | Some v => forallb bindable (cond_binds (c v))
       | None => true
       end.
Proof.
  intros query'. subst query'.
  destruct o as [[|a v]|]; cbn [given]; rewrite ?andb_true_r; try done.
  apply query_binds_filter_.
Qed.

Lemma search_condition v r :
  let like := [percent] ++ v ++ [percent] in
  cond_holds (or_ (ilike PlotModel_title like) (ilike PlotModel_summary like)) r
  = Return (sql_or (like_holds like (Some (title r.2)))
                   (like_holds like (summary r.2))).
Proof.
  intros like. unfold or_, ilike, like_holds, PlotModel_title, PlotModel_summary.
  cbn [cond_holds]. subst like. rewrite lower_pattern.
  change (percent :: (lower <$> v) ++ [percent])
    with ((percent :: (lower <$> v)) ++ [percent]).
  destruct (like_parse_ends_percent (percent :: (lower <$> v))) as [items ->].
  done.
Qed.

Lemma search_binds v :
  let like := [percent] ++ v ++ [percent] in
  forallb bindable
    (cond_binds (or_ (ilike PlotModel_title like) (ilike PlotModel_summary like)))
  = bindable v.
Proof.
  intros like. cbn [or_ ilike cond_binds app forallb]. subst like.
  unfold bindable. simpl. rewrite !forallb_app. simpl.
  by destruct (forallb bindable_char v).
Qed.

Lemma list_plots_query fwork fstatus fq db :
  ∃ query,
    list_plots fwork fstatus fq db
    = (let! plots := all_ (order_by_id_asc query) in ret plots)
    ∧ query_session query = db
    ∧ (∀ r, where_holds (query_where query) r = Return (selected fwork fstatus fq r))
    ∧ forallb bindable (query_binds query) = sendable_filters fwork fstatus fq.
Proof.
  eexists. split; [reflexivity|]. split; [|split].
  - by destruct fwork as [[]|], fstatus as [[]|], fq as [[]|].
  - intros r. unfold selected.
    edestruct (optional_filter (db_query db) fwork
      (λ v, eq_str PlotModel_work v) (λ v, Some (bool_decide (work r.2 = v))) r true)
      as (H1 & _); [done|done|].
    edestruct (optional_filter _ fstatus
      (λ v, eq_str PlotModel_status v) (λ v, Some (bool_decide (status r.2 = v))) r _ H1)
      as (H2 & _); [done|].
    edestruct (optional_filter _ fq
      (λ v, or_ (ilike PlotModel_title ([percent] ++ v ++ [percent]))
                (ilike PlotModel_summary ([percent] ++ v ++ [percent])))
      (λ v, sql_or (like_holds ([percent] ++ v ++ [percent]) (Some (title r.2)))
                   (like_holds ([percent] ++ v ++ [percent]) (summary r.2))) r _ H2)
      as (H3 & _); [intros v; apply search_condition|].
    rewrite H3, andb_true_l.
    destruct (given fwork), (given fstatus); rewrite ?sql_true_Some; reflexivity.
  - unfold sendable_filters, sendable.
    rewrite (optional_filter_binds _ fq
      (λ v, or_ (ilike PlotModel_title ([percent] ++ v ++ [percent]))
                (ilike PlotModel_summary ([percent] ++ v ++ [percent])))).
    rewrite (optional_filter_binds _ fstatus (λ v, eq_str PlotModel_status v)).
    rewrite (optional_filter_binds _ fwork (λ v, eq_str PlotModel_work v)).
    change (forallb bindable (query_binds (db_query db))) with true.
    rewrite andb_true_l.
    destruct (given fwork), (given fstatus), (given fq);
      cbn [eq_str cond_binds forallb]; rewrite ?search_binds, ?andb_true_r; reflexivity.
Qed.

Lemma load_all t s ss db rows : ∀ h u,
  ∃ u', map_m (load db) rows (mkWorld t s h (<[db:=u]> ss))
        = (Return (seq (length h) (length rows)),
           mkWorld t s (h ++ map instance_of rows) (<[db:=u']> ss)).
Proof.
  induction rows as [|r rows IH]; intros h u.
  - exists u. simpl. by rewrite app_nil_r.
  - cbn [map_m]. erewrite bind_Return by apply load_run.
    fold (instance_of r).
    edestruct (IH (h ++ [instance_of r])) as [u' Hu'].
    exists u'. erewrite bind_Return by exact Hu'.
    unfold ret. rewrite <- app_assoc, length_app, Nat.add_1_r. done.
Qed.

Lemma read_all t s ss rows : ∀ h,
  map_m to_PlotRead (seq (length h) (length rows))
    (mkWorld t s (h ++ map instance_of rows) ss)
  = (Return (map row_read rows), mkWorld t s (h ++ map instance_of rows) ss).
Proof.
  induction rows as [|r rows IH]; intros h; [done|].
  cbn [length seq map map_m].
  assert (Hr : to_PlotRead (length h)
                 (mkWorld t s (h ++ instance_of r :: map instance_of rows) ss)
               = (Return (row_read r),
                  mkWorld t s (h ++ instance_of r :: map instance_of rows) ss)).
  { unfold to_PlotRead, getobj, bind. simpl. by rewrite list_lookup_middle. }
  erewrite bind_Return by exact Hr.
  specialize (IH (h ++ [instance_of r])).
  rewrite length_app, Nat.add_1_r, <- app_assoc in IH. simpl in IH.
  by erewrite bind_Return by exact IH.
Qed.

Lemma select_listing query w fwork fstatus fq :
  (∀ r, where_holds (query_where query) r = Return (selected fwork fstatus fq r)) →
  forallb bindable (query_binds query) = true →
  select (order_by_id_asc query) w
  = Return (merge_sort id_le
              (filter (λ r, selected fwork fstatus fq r = true)
                 (map_to_list (plots w)))).
Proof.
  intros H Hb. unfold select.
  change (query_binds (order_by_id_asc query)) with (query_binds query).
  rewrite Hb. simpl.
  by rewrite (select_where_filter _ _ _ H).
Qed.

(** A list request whose filters the driver can send answers with
    [listing] of the table and leaves the table as it is. *)
Lemma GET_plots_run w fwork fstatus fq :
  sendable_filters fwork fstatus fq = true →
  ∃ w', app (GET_plots fwork fstatus fq) w
        = (Return (RespPlots (listing fwork fstatus fq (plots w))), w')
        ∧ plots w' = plots w.
Proof.
  intros Hsend. destruct w as [t s h ss].
  set (db := fresh (dom ss)).
  destruct (list_plots_query fwork fstatus fq db) as (query & Hq & Hdb & Hw & Hb).
  rewrite Hsend in Hb.
  set (rows := merge_sort id_le
                 (filter (λ r, selected fwork fstatus fq r = true) (map_to_list t))).
  destruct (load_all t s ss db rows h uow_empty) as [u' Hload].
  eexists. unfold app.
  erewrite get_db_run; [split; [reflexivity|]|].
  2:{ cbn [with_sessions plots plots_id_seq objects sessions]. fold db.
      rewrite Hq.
      erewrite bind_Return; [|erewrite bind_Return; [reflexivity|]].
      2:{ unfold all_, run_select. unfold bind at 1.
          rewrite (select_listing _ _ fwork fstatus fq Hw Hb).
          cbn [order_by_id_asc query_session plots]. rewrite Hdb. exact Hload. }
      cbv beta.
      erewrite bind_Return by apply read_all.
      reflexivity. }
  done.
Qed.

(** A list request with a filter that the driver cannot send ends with the
    driver's [ValueError], and nothing has happened. *)
Lemma GET_plots_unsendable w fwork fstatus fq :
  sendable_filters fwork fstatus fq = false →
  app (GET_plots fwork fstatus fq) w = (Raise ValueError, w).
Proof.
  intros Hsend.
  destruct (list_plots_query fwork fstatus fq (fresh (dom (sessions w))))
    as (query & Hq & Hdb & Hw & Hb).
  rewrite Hsend in Hb. unfold app.
  erewrite get_db_run; [by rewrite session_closed_again|].
  rewrite Hq.
  erewrite bind_Raise; [reflexivity|]. erewrite bind_Raise; [reflexivity|].
  unfold all_. erewrite bind_Raise; [reflexivity|].
  unfold run_select, select.
  change (query_binds (order_by_id_asc query)) with (query_binds query).
  by rewrite Hb.
Qed.

(** What a list request answers, in every case. *)
Lemma GET_plots_result w fwork fstatus fq :
  (app (GET_plots fwork fstatus fq) w).1
  = if sendable_filters fwork fstatus fq
    then Return (RespPlots (listing fwork fstatus fq (plots w)))
    else Raise ValueError.
Proof.
  destruct (sendable_filters fwork fstatus fq) eqn:Hsend.
  - by destruct (GET_plots_run w fwork fstatus fq Hsend) as (w' & -> & _).
  - by rewrite GET_plots_unsendable.
Qed.

(** *** Order of the answer *)

#[global] Instance id_le_total : Total id_le.
Proof. intros a b. unfold id_le. lia. Qed.

#[global] Instance id_le_trans : Transitive id_le.
Proof. intros a b c. unfold id_le. lia. Qed.

Lemma NoDup_fmap_filter {A B} (f : A → B) (P : A → Prop) `{∀ x, Decision (P x)} l :
  NoDup (f <$> l) → NoDup (f <$> filter P l).
Proof.
  induction l as [|x l IH]; [done|].
  rewrite fmap_cons, NoDup_cons, filter_cons. intros [Hx Hl].
  destruct (decide (P x)); [|auto].
  rewrite fmap_cons, NoDup_cons. split; [|auto].
  intros (y & Hy & Hin)%list_elem_of_fmap. apply Hx.
  apply list_elem_of_fmap. exists y. split; [done|].
  by apply list_elem_of_filter in Hin as [_ ?].
Qed.

Lemma sorted_keys_strict (rows : list Row) :
  StronglySorted id_le rows → NoDup (rows.*1) →
  StronglySorted id_lt (row_read <$> rows).
Proof.
  induction 1 as [|r rows Hs IH Hall]; [constructor|].
  rewrite fmap_cons, NoDup_cons. intros [Hr Hnd].
  rewrite fmap_cons. constructor; [auto|].
  rewrite Forall_fmap. rewrite Forall_forall in Hall |- *.
  intros r' Hin. specialize (Hall r' Hin).
  unfold id_lt, id_le in *. simpl.
  assert (r.1 ≠ r'.1); [|lia].
  intros Heq. apply Hr. rewrite Heq. by apply list_elem_of_fmap_2.
Qed.

Lemma listing_sorted fwork fstatus fq t :
  StronglySorted id_lt (listing fwork fstatus fq t).
Proof.
  apply sorted_keys_strict.
  - apply StronglySorted_merge_sort; apply _.
  - rewrite merge_sort_Permutation.
    apply NoDup_fmap_filter, NoDup_fst_map_to_list.
Qed.

Lemma elem_of_listing fwork fstatus fq t (p : PlotRead) :
  p ∈ listing fwork fstatus fq t
  ↔ t !! id p = Some (fields p) ∧ selected fwork fstatus fq (id p, fields p) = true.
Proof.
  unfold listing. rewrite list_elem_of_fmap. split.
  - intros ([k c] & -> & Hin). rewrite merge_sort_Permutation in Hin.
    apply list_elem_of_filter in Hin as [Hsel Hin].
    by apply elem_of_map_to_list in Hin.
  - intros [Hin Hsel]. exists (id p, fields p). split; [by destruct p|].
    rewrite merge_sort_Permutation. apply list_elem_of_filter.
    split; [done|]. by apply elem_of_map_to_list.
Qed.

(** *** Which plots are listed *)

Lemma selected_satisfies fwork fstatus fq r :
  meta_free_opt fq = true →
  selected fwork fstatus fq r
  = satisfies (given fwork) (given fstatus) (given fq) r.2.
Proof.
  intros Hq. unfold selected, satisfies. f_equal.
  destruct fq as [[|a v]|]; try done. cbn [given]. cbv zeta.
  rewrite (ilike_contains (a :: v) (title r.2) Hq).
  destruct (summary r.2) as [x|].
  - rewrite (ilike_contains (a :: v) x Hq).
    by destruct (contains_ci _ (title r.2)), (contains_ci _ x).
  - unfold like_holds at 1. destruct (like_parse _); by destruct (contains_ci _ _).
Qed.

Lemma elem_of_listing_satisfies fwork fstatus fq t (p : PlotRead) :
  meta_free_opt fq = true →
  p ∈ listing fwork fstatus fq t
  ↔ t !! id p = Some (fields p)
    ∧ satisfies (given fwork) (given fstatus) (given fq) p = true.
Proof.
  intros Hq. by rewrite elem_of_listing, (selected_satisfies _ _ _ _ Hq).
Qed.

(** C3, as the code has it. For every state of the store and every list
    request whose filters the driver can send (no U+0000, no surrogate),
    List plots answers with a sequence, never an error, in which the ids
    increase strictly, and whose members are exactly the stored plots that
    pass the WHERE clause of the request.  When moreover [q] has none of
    [%], [_] and backslash, these are exactly the stored plots that satisfy
    every provided non-empty filter, and the sequence is empty when no
    stored plot satisfies them. *)
Theorem list_plots_sorted (w : World) (fwork fstatus fq : option str) :
  sendable_filters fwork fstatus fq = true →
  ∃ ps,
    (app (GET_plots fwork fstatus fq) w).1 = Return (RespPlots ps)
    ∧ StronglySorted id_lt ps
    ∧ (∀ p : PlotRead, p ∈ ps ↔
         plots w !! id p = Some (fields p)
         ∧ selected fwork fstatus fq (id p, fields p) = true)
    ∧ (meta_free_opt fq = true →
       (∀ p : PlotRead, p ∈ ps ↔
          plots w !! id p = Some (fields p)
          ∧ satisfies (given fwork) (given fstatus) (given fq) p = true)
       ∧ ((∀ k c, plots w !! k = Some c →
                  satisfies (given fwork) (given fstatus) (given fq) c = false) →
          ps = [])).
Proof.
  intros Hsend. destruct (GET_plots_run w fwork fstatus fq Hsend) as (w' & -> & _).
  eexists. split; [reflexivity|]. split; [apply listing_sorted|].
  split; [intros p; apply elem_of_listing|].
  intros Hq. split; [intros p; by apply elem_of_listing_satisfies|].
  intros Hnone. destruct (listing fwork fstatus fq (plots w)) as [|p ps] eqn:E; [done|].
  assert (Hp : p ∈ listing fwork fstatus fq (plots w)) by (rewrite E; left).
  apply (elem_of_listing_satisfies _ _ _ _ _ Hq) in Hp as [Hin Hsat].
  by rewrite (Hnone _ _ Hin) in Hsat.
Qed.


(** C2, as the code has it. A filter given as the empty string counts as
    not provided.  For a list request whose filters the driver can send (no
    U+0000, no surrogate) and whose [q] has none of the characters [%], [_]
    and backslash, a plot is in the answer if and only if it is stored and
    satisfies every provided filter: its work equals the given work, its
    status equals the given status, and its title or its summary contains
    [q], letter case apart. *)
Theorem list_plots_filters (w : World) (fwork fstatus fq : option str) (p : PlotRead) :
  sendable_filters fwork fstatus fq = true →
  meta_free_opt fq = true →
  ∃ ps,
    (app (GET_plots fwork fstatus fq) w).1 = Return (RespPlots ps)
    ∧ (p ∈ ps ↔
       plots w !! id p = Some (fields p)
       ∧ satisfies (given fwork) (given fstatus) (given fq) p = true).
Proof.
  intros Hsend Hq. destruct (GET_plots_run w fwork fstatus fq Hsend) as (w' & -> & _).
  eexists. split; [reflexivity|]. by apply elem_of_listing_satisfies.
Qed.

(** *** Empty filters *)

Lemma listing_unfiltered t :
  listing None None None t ≡ₚ row_read <$> map_to_list t.
Proof.
  unfold listing. rewrite merge_sort_Permutation.
  f_equiv. induction (map_to_list t) as [|r l IH]; [done|].
  rewrite filter_cons, decide_True by done. by rewrite IH.
Qed.

(** C10. A list request that gives the empty string for [work], [status]
    or [q] is answered, and leaves the service, exactly as the request
    without that parameter; so [GET /plots?work=] answers with all the
    stored plots, each once. *)
Theorem empty_filter_is_no_filter (w : World) (fwork fstatus fq : option str) :
  app (GET_plots (Some []) fstatus fq) w = app (GET_plots None fstatus fq) w
  ∧ app (GET_plots fwork (Some []) fq) w = app (GET_plots fwork None fq) w
  ∧ app (GET_plots fwork fstatus (Some [])) w = app (GET_plots fwork fstatus None) w
  ∧ ∃ ps,
      (app (GET_plots (Some []) None None) w).1 = Return (RespPlots ps)
      ∧ ps ≡ₚ row_read <$> map_to_list (plots w).
Proof.
  split; [reflexivity|]. split; [by destruct fwork as [[]|]|].
  split; [by destruct fwork as [[]|], fstatus as [[]|]|].
  destruct (GET_plots_run w None None None eq_refl) as (w' & Hr & _).
  eexists. split.
  - change (app (GET_plots (Some []) None None) w)
      with (app (GET_plots None None None) w).
    by rewrite Hr.
  - apply listing_unfiltered.
Qed.

(** * Further properties of the service *)

(** ** What the columns make of a body *)

Lemma varchar_cut n s :
  varchar n s = if spaces_beyond n s then Return (take n s) else Raise DataError.
Proof.
  unfold varchar, spaces_beyond. destruct (length s <=? n)%nat eqn:Hlen.
  - apply Nat.leb_le in Hlen. by rewrite drop_ge, take_ge by done.
  - done.
Qed.

Lemma insert_columns_cut c :
  insert_columns c = if columns_take c then Return (cut c) else Raise DataError.
Proof.
  unfold insert_columns, columns_take, cut. rewrite !varchar_cut.
  by destruct (spaces_beyond 200 _), (spaces_beyond 100 _), (spaces_beyond 50 _).
Qed.

Lemma within_take n s : (length s <=? n)%nat = true → spaces_beyond n s = true ∧ take n s = s.
Proof.
  intros H%Nat.leb_le. unfold spaces_beyond. by rewrite drop_ge, take_ge by done.
Qed.

Lemma storable_take c : storable c = true → columns_take c = true ∧ cut c = c.
Proof.
  unfold storable, within_widths, columns_take, cut. rewrite !andb_true_iff.
  intros (_ & (Ht & Hw) & Hs).
  destruct (within_take _ _ Ht) as [-> ->], (within_take _ _ Hw) as [-> ->],
    (within_take _ _ Hs) as [-> ->].
  by destruct c.
Qed.

Lemma update_varchar_cut n (o v : str) :
  (length o <=? n)%nat = true →
  (if decide (o = v) then Return o else varchar n v)
  = if spaces_beyond n v then Return (take n v) else Raise DataError.
Proof.
  intros Ho. destruct (decide (o = v)) as [->|_]; [|apply varchar_cut].
  by destruct (within_take _ _ Ho) as [-> ->].
Qed.

Lemma update_columns_cut old c :
  storable old = true →
  update_columns old c
  = if columns_take c then Return (cut c) else Raise DataError.
Proof.
  intros Hold. unfold storable, within_widths in Hold.
  apply andb_true_iff in Hold as [_ Hold].
  apply andb_true_iff in Hold as [Hold Hs]. apply andb_true_iff in Hold as [Ht Hw].
  unfold update_columns, columns_take, cut.
  rewrite (update_varchar_cut _ _ _ Ht), (update_varchar_cut _ _ _ Hw),
    (update_varchar_cut _ _ _ Hs).
  by destruct (spaces_beyond 200 _), (spaces_beyond 100 _), (spaces_beyond 50 _).
Qed.

Lemma bindable_take n s : bindable s = true → bindable (take n s) = true.
Proof.
  unfold bindable. revert n. induction s as [|c s IH]; intros [|n]; simpl; try done.
  rewrite !andb_true_iff. intros [Hc Hs]. split; [done|]. by apply IH.
Qed.

Lemma forallb_binds c :
  forallb bindable (binds c)
  = bindable (title c) && bindable (work c) && bindable (status c)
    && match summary c with Some x => bindable x | None => true end.
Proof.
  unfold binds. simpl. destruct (summary c); simpl;
    by rewrite ?andb_true_r, ?andb_assoc.
Qed.

Lemma storable_cut c :
  forallb bindable (binds c) = true → storable (cut c) = true.
Proof.
  unfold storable. rewrite !forallb_binds, !andb_true_iff.
  intros [[[Ht Hw] Hs] Hsum]. unfold cut, within_widths.
  cbn [title work status summary]. rewrite !andb_true_iff.
  repeat split; try (by apply bindable_take); try done;
    apply Nat.leb_le; rewrite length_take; lia.
Qed.

Lemma update_binds_sendable old c :
  forallb bindable (binds c) = true →
  forallb bindable (update_binds old c) = true.
Proof.
  rewrite forallb_binds, !andb_true_iff. intros [[[Ht Hw] Hs] Hsum].
  unfold update_binds. rewrite !forallb_app.
  repeat (apply andb_true_iff; split);
    destruct (decide _); simpl; rewrite ?Ht, ?Hw, ?Hs; try done.
  destruct (summary c); simpl; [by rewrite Hsum|done].
Qed.

(** A body with a string that the driver cannot send differs, in that
    string, from any row the database holds. *)
Lemma update_binds_unsendable old c :
  storable old = true →
  forallb bindable (binds c) = false →
  forallb bindable (update_binds old c) = false ∧ old ≠ c.
Proof.
  intros Hold Hc. unfold storable in Hold. apply andb_true_iff in Hold as [Hold _].
  split; [|by intros ->; rewrite Hold in Hc].
  rewrite forallb_binds in Hold, Hc. rewrite !andb_true_iff in Hold.
  destruct Hold as [[[Hot How] Hos] Hosum].
  unfold update_binds. rewrite !forallb_app.
  destruct (bindable (title c)) eqn:Ht.
  - destruct (bindable (work c)) eqn:Hw.
    + destruct (bindable (status c)) eqn:Hs.
      * simpl in Hc. destruct (decide (summary old = summary c)) as [E|_].
        { rewrite E in Hosum. by rewrite Hosum in Hc. }
        destruct (summary c) as [x|]; [|done]. simpl. rewrite Hc.
        by rewrite !andb_false_r.
      * destruct (decide (status old = status c)) as [E|_]; [congruence|].
        simpl. rewrite Hs. by rewrite !andb_false_r.
    + destruct (decide (work old = work c)) as [E|_]; [congruence|].
      simpl. rewrite Hw. by rewrite !andb_false_r.
  - destruct (decide (title old = title c)) as [E|_]; [congruence|].
    simpl. by rewrite Ht.
Qed.

(** ** What the store always satisfies *)

Create HintDb keeps.

Lemma keeps_ret {A} (a : A) : keeps_store (ret a).
Proof. intros w Hok. simpl. split; [done|lia]. Qed.

Lemma keeps_raise {A} e : keeps_store (@raise A e).
Proof. intros w Hok. simpl. split; [done|lia]. Qed.

Lemma keeps_bind {A B} (m : M A) (k : A → M B) :
  keeps_store m → (∀ a, keeps_store (k a)) → keeps_store (bind m k).
Proof.
  intros Hm Hk w Hok. unfold bind. destruct (Hm w Hok) as [Hok1 Hle1].
  destruct (m w) as [[a|e] w1]; simpl in *; [|done].
  destruct (Hk a w1 Hok1) as [Hok2 Hle2]. split; [done|lia].
Qed.

(** A step that touches neither the table nor the sequence. *)
Lemma keeps_modify (f : World → World) :
  (∀ w, plots (f w) = plots w ∧ plots_id_seq (f w) = plots_id_seq w) →
  keeps_store (modify f).
Proof.
  intros Hf w [Hseq Hrows]. destruct (Hf w) as [Hp Hs]. simpl.
  unfold store_ok. rewrite Hp, Hs. split; [split; [done|]|lia].
  intros k c Hc. by apply Hrows.
Qed.

Lemma keeps_get_world : keeps_store get_world.
Proof. intros w Hok. simpl. split; [done|lia]. Qed.

Lemma keeps_for_each {A} (f : A → M unit) l :
  (∀ x, keeps_store (f x)) → keeps_store (for_each f l).
Proof.
  intros Hf. induction l as [|x l IH]; simpl.
  - apply keeps_ret.
  - apply keeps_bind; auto.
Qed.

Lemma keeps_map_m {A B} (f : A → M B) l :
  (∀ x, keeps_store (f x)) → keeps_store (map_m f l).
Proof.
  intros Hf. induction l as [|x l IH]; simpl.
  - apply keeps_ret.
  - apply keeps_bind; [auto|]. intros y.
    apply keeps_bind; [auto|]. intros ys. apply keeps_ret.
Qed.

Lemma keeps_update_uow db f : keeps_store (update_uow db f).
Proof. by apply keeps_modify. Qed.

Lemma keeps_getobj plot : keeps_store (getobj plot).
Proof.
  intros w Hok. unfold getobj. destruct (objects w !! plot); simpl; split; (done || lia).
Qed.

Lemma keeps_alloc o : keeps_store (alloc o).
Proof. intros w Hok. simpl. split; [done|lia]. Qed.

Lemma keeps_run_select query : keeps_store (run_select query).
Proof.
  intros w Hok. unfold run_select. destruct (select query w); simpl; split; (done || lia).
Qed.

#[local] Hint Resolve keeps_ret keeps_raise keeps_get_world keeps_update_uow
  keeps_getobj keeps_alloc keeps_run_select : keeps.
#[local] Hint Extern 1 (keeps_store (modify _)) =>
  (apply keeps_modify; intros ?; split; reflexivity) : keeps.

Ltac keeps_step :=
  lazymatch goal with
  | |- keeps_store (bind _ _) => apply keeps_bind; [|intros ?]
  | |- keeps_store (for_each _ _) => apply keeps_for_each; intros ?
  | |- keeps_store (map_m _ _) => apply keeps_map_m; intros ?
  | |- keeps_store (match ?x with _ => _ end) => destruct x
  | |- keeps_store (if ?b then _ else _) => destruct b
  | |- _ => solve [eauto with keeps]
  end.

Ltac keeps_auto := repeat keeps_step.

Lemma keeps_setattr plot set : keeps_store (setattr plot set).
Proof. unfold setattr. keeps_auto. Qed.

Lemma keeps_load db r : keeps_store (load db r).
Proof. unfold load. keeps_auto. Qed.

Lemma keeps_to_PlotRead plot : keeps_store (to_PlotRead plot).
Proof. unfold to_PlotRead. keeps_auto. Qed.

Lemma keeps_name_ locals x : keeps_store (name_ locals x).
Proof. unfold name_. keeps_auto. Qed.

#[local] Hint Resolve keeps_setattr keeps_load keeps_to_PlotRead keeps_name_ : keeps.

Lemma keeps_all_ query : keeps_store (all_ query).
Proof. unfold all_. keeps_auto. Qed.

Lemma keeps_first query : keeps_store (first query).
Proof. unfold first. keeps_auto. Qed.

(** INSERT: the new key is the next id, above every key there is, and the
    row is the body as the columns take it. *)
Lemma keeps_flush_insert plot : keeps_store (flush_insert plot).
Proof.
  unfold flush_insert. apply keeps_bind; [apply keeps_getobj|]. intros o.
  destruct (forallb bindable (binds (columns o))) eqn:Hb; [|apply keeps_raise].
  rewrite insert_columns_cut.
  destruct (columns_take (columns o)); [|apply keeps_raise].
  pose proof (storable_cut _ Hb) as Hcut.
  intros w [Hseq Hrows]. unfold bind, get_world, modify, with_seq. simpl.
  destruct (plots w !! (plots_id_seq w + 1)) as [c|] eqn:Hk; simpl.
  - split; [|lia]. split; simpl; [lia|]. intros k c' Hc'.
    destruct (Hrows k c' Hc'). split; [lia|done].
  - unfold setattr, bind, getobj. simpl.
    destruct (objects w !! plot); simpl; (split; [|lia]); split; simpl; try lia.
    all: intros k c' Hc'; destruct (decide (k = plots_id_seq w + 1)) as [->|Hne];
      [ rewrite lookup_insert_eq in Hc'; injection Hc' as <-; split; [lia|done]
      | rewrite lookup_insert_ne in Hc' by done;
        destruct (Hrows k c' Hc'); split; [lia|done] ].
Qed.

(** UPDATE: the key is one that is there, and the row is the body as the
    columns take it. *)
Lemma keeps_flush_update plot : keeps_store (flush_update plot).
Proof.
  unfold flush_update. apply keeps_bind; [apply keeps_getobj|]. intros o.
  intros w [Hseq Hrows]. unfold bind, get_world. cbv beta iota.
  destruct (pk o) as [k|]; [|split; [done|simpl; lia]].
  destruct (plots w !! k) as [row|] eqn:Hk; [|split; [done|simpl; lia]].
  destruct (decide (row = columns o)); [split; [done|simpl; lia]|].
  destruct (Hrows k row Hk) as [Hkey Hrow].
  destruct (forallb bindable (update_binds row (columns o))) eqn:Hb;
    [|split; [done|simpl; lia]].
  rewrite (update_columns_cut _ _ Hrow).
  destruct (columns_take (columns o)); [|split; [done|simpl; lia]].
  assert (Hcut : storable (cut (columns o)) = true).
  { apply storable_cut. destruct (forallb bindable (binds (columns o))) eqn:Hc; [done|].
    destruct (update_binds_unsendable _ _ Hrow Hc) as [Hno _]. congruence. }
  split; [|simpl; lia]. split; simpl; [lia|]. intros k' c' Hc'.
  destruct (decide (k' = k)) as [->|Hne].
  - rewrite lookup_insert_eq in Hc'. injection Hc' as <-. done.
  - rewrite lookup_insert_ne in Hc' by done. by apply Hrows.
Qed.

Lemma keeps_flush_delete plot : keeps_store (flush_delete plot).
Proof.
  intros w [Hseq Hrows]. unfold flush_delete, bind, getobj, get_world.
  destruct (objects w !! plot) as [o|]; simpl; [|split; [done|lia]].
  destruct (pk o) as [k|]; simpl; [|split; [done|lia]].
  destruct (plots w !! k) as [row|] eqn:Hk; simpl; [|split; [done|lia]].
  split; [|lia]. split; simpl; [lia|]. intros k' c' Hc'.
  apply lookup_delete_Some in Hc' as [_ Hc']. by apply Hrows.
Qed.

#[local] Hint Resolve keeps_flush_insert keeps_flush_update keeps_flush_delete : keeps.

Lemma keeps_flush db : keeps_store (flush db).
Proof. unfold flush. keeps_auto. Qed.

(** A commit that fails puts the table back; the sequence stays ahead. *)
Lemma keeps_db_commit db : keeps_store (db_commit db).
Proof.
  intros w Hok. unfold db_commit. destruct (keeps_flush db w Hok) as [Hok' Hle].
  destruct (flush db w) as [[[]|e] w']; simpl in *; [done|].
  split; [|lia]. destruct Hok as [Hseq Hrows]. split; simpl; [lia|].
  intros k c Hc. destruct (Hrows k c Hc). split; [lia|done].
Qed.

Lemma keeps_db_refresh db plot : keeps_store (db_refresh db plot).
Proof. unfold db_refresh. keeps_auto. Qed.

Lemma keeps_db_add db plot : keeps_store (db_add db plot).
Proof. apply keeps_update_uow. Qed.

Lemma keeps_db_delete db plot : keeps_store (db_delete db plot).
Proof. apply keeps_update_uow. Qed.

#[local] Hint Resolve keeps_all_ keeps_first keeps_db_commit keeps_db_refresh
  keeps_db_add keeps_db_delete : keeps.

Lemma keeps_list_plots fwork fstatus fq db : keeps_store (list_plots fwork fstatus fq db).
Proof. unfold list_plots. keeps_auto. Qed.

Lemma keeps_get_plot plot_id db : keeps_store (get_plot plot_id db).
Proof. unfold get_plot. keeps_auto. Qed.

Lemma keeps_create_plot data db : keeps_store (create_plot data db).
Proof. unfold create_plot, new_PlotModel. keeps_auto. Qed.

Lemma keeps_update_plot plot_id data db : keeps_store (update_plot plot_id data db).
Proof. unfold update_plot. keeps_auto. Qed.

Lemma keeps_delete_plot plot_id db : keeps_store (delete_plot plot_id db).
Proof. unfold delete_plot. keeps_auto. Qed.

#[local] Hint Resolve keeps_list_plots keeps_get_plot keeps_create_plot
  keeps_update_plot keeps_delete_plot : keeps.

Lemma keeps_get_db {A} (yield_ : nat → M A) :
  (∀ db, keeps_store (yield_ db)) → keeps_store (get_db yield_).
Proof.
  intros Hy w Hok. unfold get_db, bind, SessionLocal, try_finally.
  set (db := fresh (dom (sessions w))).
  destruct (Hy db (with_sessions (<[db:=uow_empty]> (sessions w)) w)) as [Hok' Hle];
    [done|].
  destruct (yield_ db _) as [r w1]. simpl in *. done.
Qed.

Lemma keeps_app req : keeps_store (app req).
Proof.
  destruct req; unfold app, ping.
  - keeps_auto.
  - apply keeps_get_db. intros db. keeps_auto.
  - apply keeps_get_db. intros db. keeps_auto.
  - apply keeps_get_db. intros db. keeps_auto.
  - apply keeps_get_db. intros db. keeps_auto.
  - apply keeps_get_db. intros db. keeps_auto.
Qed.

Lemma serve_app reqs1 reqs2 w : serve (reqs1 ++ reqs2) w = serve reqs2 (serve reqs1 w).
Proof. revert w. induction reqs1 as [|req reqs1 IH]; intros w; simpl; [done|apply IH]. Qed.

Lemma keeps_serve reqs w :
  store_ok w → store_ok (serve reqs w) ∧ plots_id_seq w ≤ plots_id_seq (serve reqs w).
Proof.
  revert w. induction reqs as [|req reqs IH]; intros w Hok; simpl; [split; [done|lia]|].
  destruct (keeps_app req w Hok) as [Hok1 Hle1].
  destruct (IH _ Hok1) as [Hok2 Hle2]. split; [done|lia].
Qed.

Lemma store_ok_world0 : store_ok world0.
Proof. split; simpl; [lia|]. intros k c Hc. by rewrite lookup_empty in Hc. Qed.

(** ** Requests that only read *)

Create HintDb reads.

Lemma reads_ret {A} (a : A) : reads_only (ret a).
Proof. by intros w. Qed.

Lemma reads_raise {A} e : reads_only (@raise A e).
Proof. by intros w. Qed.

Lemma reads_bind {A B} (m : M A) (k : A → M B) :
  reads_only m → (∀ a, reads_only (k a)) → reads_only (bind m k).
Proof.
  intros Hm Hk w. unfold bind. destruct (Hm w) as [Hp Hs].
  destruct (m w) as [[a|e] w1]; simpl in *; [|done].
  destruct (Hk a w1) as [Hp' Hs']. split; congruence.
Qed.

Lemma reads_modify (f : World → World) :
  (∀ w, plots (f w) = plots w ∧ plots_id_seq (f w) = plots_id_seq w) →
  reads_only (modify f).
Proof. intros Hf w. apply Hf. Qed.

Lemma reads_map_m {A B} (f : A → M B) l :
  (∀ x, reads_only (f x)) → reads_only (map_m f l).
Proof.
  intros Hf. induction l as [|x l IH]; simpl.
  - apply reads_ret.
  - apply reads_bind; [auto|]. intros y.
    apply reads_bind; [auto|]. intros ys. apply reads_ret.
Qed.

Lemma reads_getobj plot : reads_only (getobj plot).
Proof. intros w. unfold getobj. by destruct (objects w !! plot). Qed.

Lemma reads_alloc o : reads_only (alloc o).
Proof. by intros w. Qed.

Lemma reads_run_select query : reads_only (run_select query).
Proof. intros w. unfold run_select. by destruct (select query w). Qed.

Lemma reads_update_uow db f : reads_only (update_uow db f).
Proof. by apply reads_modify. Qed.

#[local] Hint Resolve reads_ret reads_raise reads_getobj reads_alloc
  reads_run_select reads_update_uow : reads.

Ltac reads_step :=
  lazymatch goal with
  | |- reads_only (bind _ _) => apply reads_bind; [|intros ?]
  | |- reads_only (map_m _ _) => apply reads_map_m; intros ?
  | |- reads_only (match ?x with _ => _ end) => destruct x
  | |- _ => solve [eauto with reads]
  end.

Ltac reads_auto := repeat reads_step.

Lemma reads_load db r : reads_only (load db r).
Proof. unfold load. reads_auto. Qed.

Lemma reads_to_PlotRead plot : reads_only (to_PlotRead plot).
Proof. unfold to_PlotRead. reads_auto. Qed.

#[local] Hint Resolve reads_load reads_to_PlotRead : reads.

Lemma reads_all_ query : reads_only (all_ query).
Proof. unfold all_. reads_auto. Qed.

Lemma reads_first query : reads_only (first query).
Proof. unfold first. reads_auto. Qed.

#[local] Hint Resolve reads_all_ reads_first : reads.

Lemma reads_list_plots fwork fstatus fq db : reads_only (list_plots fwork fstatus fq db).
Proof. unfold list_plots. reads_auto. Qed.

Lemma reads_get_plot plot_id db : reads_only (get_plot plot_id db).
Proof. unfold get_plot. reads_auto. Qed.

#[local] Hint Resolve reads_list_plots reads_get_plot : reads.

Lemma reads_get_db {A} (yield_ : nat → M A) :
  (∀ db, reads_only (yield_ db)) → reads_only (get_db yield_).
Proof.
  intros Hy w. unfold get_db, bind, SessionLocal, try_finally.
  set (db := fresh (dom (sessions w))).
  specialize (Hy db (with_sessions (<[db:=uow_empty]> (sessions w)) w)).
  by destruct (yield_ db _) as [r w1].
Qed.

(** X1. The health check, List plots and Get plot by id write nothing:
    whatever they answer, the table and the id sequence are afterwards what
    they were. *)
Theorem reading_requests_write_nothing (w : World) (fwork fstatus fq : option str) (n : Z) :
  (plots (app GET_ping w).2 = plots w
   ∧ plots_id_seq (app GET_ping w).2 = plots_id_seq w)
  ∧ (plots (app (GET_plots fwork fstatus fq) w).2 = plots w
     ∧ plots_id_seq (app (GET_plots fwork fstatus fq) w).2 = plots_id_seq w)
  ∧ (plots (app (GET_plot n) w).2 = plots w
     ∧ plots_id_seq (app (GET_plot n) w).2 = plots_id_seq w).
Proof.
  split; [done|]. split.
  - apply (reads_get_db (λ db, _)). intros db. reads_auto.
  - apply (reads_get_db (λ db, _)). intros db. reads_auto.
Qed.

(** X2. For a stored id, Get plot by id answers with that id and the four
    stored values. *)
Theorem stored_plot_is_returned (w : World) (n : Z) (c : PlotBase) :
  plots w !! n = Some c →
  (app (GET_plot n) w).1 = Return (RespPlot (mkPlotRead n c))
  ∧ http_status (app (GET_plot n) w).1 = 200.
Proof.
  intros Hn. destruct (GET_plot_run w n c Hn) as (w' & -> & _). done.
Qed.

(** X3. A request for an id that is not stored leaves no trace at all: Get,
    Update and Delete answer NotFound and the whole world — table,
    sequence, objects, open sessions — is as before. *)
Theorem not_found_leaves_no_trace (w : World) (n : Z) (data : PlotCreate) :
  plots w !! n = None →
  app (GET_plot n) w = (NotFound, w)
  ∧ app (PUT_plot n data) w = (NotFound, w)
  ∧ app (DELETE_plot n) w = (NotFound, w).
Proof.
  intros H. repeat split; unfold app.
  - erewrite get_db_run; [by rewrite session_closed_again|]. simpl.
    unfold get_plot. erewrite bind_Raise; [done|]. by apply lookup_by_id_absent.
  - erewrite get_db_run; [by rewrite session_closed_again|]. simpl.
    unfold update_plot. erewrite bind_Raise; [done|]. by apply lookup_by_id_absent.
  - erewrite get_db_run; [by rewrite session_closed_again|]. simpl.
    unfold delete_plot. erewrite bind_Raise; [done|]. by apply lookup_by_id_absent.
Qed.

(** ** How the requests for one plot compose *)

(** What Get plot by id answers, read off the table. *)
Lemma GET_plot_result w n :
  (app (GET_plot n) w).1
  = match plots w !! n with
    | Some c => Return (RespPlot (mkPlotRead n c))
    | None => NotFound
    end.
Proof.
  destruct (plots w !! n) as [c|] eqn:Hn.
  - by destruct (GET_plot_run w n c Hn) as (w' & -> & _).
  - by apply GET_plot_absent.
Qed.

(** X4. Update then get: after Update plot on a stored id with a body that
    the database takes as it is (no U+0000, no surrogate, title, work and
    status within 200, 100 and 50 characters), Get plot by id on that id
    answers with the id and the values of the body, which is what the
    update answered. *)
Theorem update_then_get (w : World) (n : Z) (old data : PlotCreate) :
  plots w !! n = Some old →
  storable data = true →
  let w' := (app (PUT_plot n data) w).2 in
  (app (GET_plot n) w').1 = Return (RespPlot (mkPlotRead n data))
  ∧ (app (GET_plot n) w').1 = (app (PUT_plot n data) w).1.
Proof.
  intros Hn Hfit. destruct (PUT_plot_run w n old data Hn Hfit) as (w' & -> & Ht).
  cbn [snd fst]. rewrite GET_plot_result, Ht, lookup_insert_eq. done.
Qed.

(** X5. The last update wins: two updates of a stored id in a row, each
    with a body that the database takes as it is, leave the table that the
    second alone would have left, and the second answers with its own
    body; nothing of the first remains. *)
Theorem last_update_wins (w : World) (n : Z) (old d1 d2 : PlotCreate) :
  plots w !! n = Some old →
  storable d1 = true →
  storable d2 = true →
  let w1 := (app (PUT_plot n d1) w).2 in
  let (r2, w2) := app (PUT_plot n d2) w1 in
  r2 = Return (RespPlot (mkPlotRead n d2))
  ∧ plots w2 = <[n:=d2]> (plots w)
  ∧ plots w2 = plots (app (PUT_plot n d2) w).2.
Proof.
  intros Hn Hf1 Hf2.
  destruct (PUT_plot_run w n old d2 Hn Hf2) as (wb & -> & Htb).
  destruct (PUT_plot_run w n old d1 Hn Hf1) as (w1 & -> & Ht1). cbn [snd fst].
  destruct (PUT_plot_run w1 n d1 d2) as (w2 & -> & Ht2); [|done|].
  { rewrite Ht1. apply lookup_insert_eq. }
  rewrite Ht2, Ht1, Htb, insert_insert_eq. done.
Qed.

(** X6. Delete is final and touches one id only: after Delete plot on a
    stored id, a second Delete and an Update on that id answer NotFound,
    and Get plot by id on any other id answers what it answered before. *)
Theorem delete_is_final (w : World) (n m : Z) (c data : PlotCreate) :
  plots w !! n = Some c →
  m ≠ n →
  let w' := (app (DELETE_plot n) w).2 in
  (app (DELETE_plot n) w').1 = NotFound
  ∧ (app (PUT_plot n data) w').1 = NotFound
  ∧ (app (GET_plot m) w').1 = (app (GET_plot m) w).1.
Proof.
  intros Hn Hm. destruct (DELETE_plot_run w n c Hn) as (w' & -> & Ht). cbn [snd fst].
  assert (Hgone : plots w' !! n = None) by (rewrite Ht; apply lookup_delete_eq).
  rewrite DELETE_plot_absent, PUT_plot_absent by done.
  rewrite !GET_plot_result, Ht, lookup_delete_ne by done. done.
Qed.

(** ** Ids over the life of the service *)

Lemma next_id_free w : store_ok w → plots w !! (plots_id_seq w + 1) = None.
Proof.
  intros [_ Hrows]. destruct (plots w !! (plots_id_seq w + 1)) as [c|] eqn:Hk; [|done].
  destruct (Hrows _ _ Hk). lia.
Qed.

(** X7. After any history of requests since the start of the service, the
    id sequence is not negative, every stored id lies between 1 and the
    last id handed out, every stored row has strings without U+0000 and
    surrogates and a title, work and status of at most 200, 100 and 50
    characters, and one more request never takes the sequence back. *)
Theorem store_invariant (reqs : list Request) (req : Request) :
  let w := serve reqs world0 in
  0 ≤ plots_id_seq w
  ∧ (∀ k c, plots w !! k = Some c →
            (0 < k ≤ plots_id_seq w) ∧ storable c = true)
  ∧ plots_id_seq w ≤ plots_id_seq (app req w).2.
Proof.
  intros w. destruct (keeps_serve reqs world0 store_ok_world0) as [Hok _].
  destruct (keeps_app req _ Hok) as [_ Hle]. fold w in Hok, Hle.
  destruct Hok as [Hseq Hrows]. done.
Qed.

(** X8. Ids are handed out in increasing order and never again: after any
    history, a create with a body that the database takes as it is stores
    the body under an id that was not stored, and a later such create —
    whatever happened in between, deletions included — stores its body
    under a larger id. *)
Theorem ids_increase (reqs1 reqs2 : list Request) (d1 d2 : PlotCreate) :
  storable d1 = true →
  storable d2 = true →
  let w1 := serve reqs1 world0 in
  let id1 := plots_id_seq w1 + 1 in
  let w1' := (app (POST_plots d1) w1).2 in
  let w2 := serve reqs2 w1' in
  let id2 := plots_id_seq w2 + 1 in
  let w2' := (app (POST_plots d2) w2).2 in
  (plots w1 !! id1 = None ∧ plots w1' !! id1 = Some d1)
  ∧ (plots w2 !! id2 = None ∧ plots w2' !! id2 = Some d2)
  ∧ id1 < id2.
Proof.
  intros Hf1 Hf2 w1 id1 w1' w2 id2 w2'.
  destruct (keeps_serve reqs1 world0 store_ok_world0) as [Hok1 _]. fold w1 in Hok1.
  pose proof (next_id_free w1 Hok1) as Hfree1. fold id1 in Hfree1.
  destruct (keeps_app (POST_plots d1) w1 Hok1) as [Hok1' _]. fold w1' in Hok1'.
  destruct (POST_plots_run w1 d1 Hf1 Hfree1) as (x & Hx & Ht1 & Hs1).
  assert (w1' = x) as Hw1' by (unfold w1'; by rewrite Hx).
  rewrite <- Hw1' in Ht1, Hs1. fold id1 in Ht1, Hs1.
  destruct (keeps_serve reqs2 w1' Hok1') as [Hok2 Hle2]. fold w2 in Hok2, Hle2.
  pose proof (next_id_free w2 Hok2) as Hfree2. fold id2 in Hfree2.
  destruct (POST_plots_run w2 d2 Hf2 Hfree2) as (y & Hy & Ht2 & _).
  assert (w2' = y) as Hw2' by (unfold w2'; by rewrite Hy).
  rewrite <- Hw2' in Ht2. fold id2 in Ht2.
  repeat split; try done.
  - rewrite Ht1. apply lookup_insert_eq.
  - rewrite Ht2. apply lookup_insert_eq.
  - unfold id2. lia.
Qed.

(** X9. Nothing makes plots unique: after any history, two creates with the
    same body, one that the database takes as it is, store two rows with
    those values under two different new ids, and every row that was there
    stays. *)
Theorem duplicates_are_stored (reqs : list Request) (data : PlotCreate) :
  storable data = true →
  let w := serve reqs world0 in
  let n := plots_id_seq w in
  let w2 := (app (POST_plots data) (app (POST_plots data) w).2).2 in
  plots w2 = <[n + 2:=data]> (<[n + 1:=data]> (plots w))
  ∧ plots w !! (n + 1) = None
  ∧ plots w !! (n + 2) = None
  ∧ size (plots w2) = (size (plots w) + 2)%nat.
Proof.
  intros Hfit w n w2.
  destruct (keeps_serve reqs world0 store_ok_world0) as [Hok _]. fold w in Hok.
  pose proof (next_id_free w Hok) as Hfree. fold n in Hfree.
  destruct (keeps_app (POST_plots data) w Hok) as [Hok1 _].
  destruct (POST_plots_run w data Hfit Hfree) as (w1 & Hw1 & Ht1 & Hs1).
  rewrite Hw1 in Hok1. cbn [snd] in Hok1. fold n in Ht1, Hs1.
  pose proof (next_id_free w1 Hok1) as Hfree1.
  destruct (POST_plots_run w1 data Hfit Hfree1) as (x & Hx & Ht2 & _).
  assert (w2 = x) as -> by (unfold w2; rewrite Hw1; cbn [snd]; by rewrite Hx).
  rewrite Hs1 in Ht2, Hfree1. replace (n + 1 + 1) with (n + 2) in Ht2, Hfree1 by lia.
  assert (Hfree2 : plots w !! (n + 2) = None).
  { rewrite Ht1, lookup_insert_ne in Hfree1 by lia. done. }
  rewrite Ht2, Ht1. repeat split; try done.
  rewrite !map_size_insert_None; [lia|done|].
  by rewrite lookup_insert_ne by lia.
Qed.

(** ** Bodies that the database cuts or refuses *)

Section Refused.
Context (t : gmap Z PlotBase) (s : Z) (h : list PlotModel)
        (ss : gmap nat UnitOfWork) (db : nat).

(** A commit whose statements fail gives the exception and the old table. *)
Lemma flush_fails u e w1 :
  let w := mkWorld t s h (<[db:=u]> ss) in
  (do! for_each flush_insert (uow_new u) in
   do! for_each flush_update
         (filter (λ plot, plot ∉ uow_deleted u) (uow_identity u)) in
   for_each flush_delete (uow_deleted u)) w = (Raise e, w1) →
  db_commit db w = (Raise e, with_plots t w1).
Proof.
  intros w H. unfold db_commit, flush.
  rewrite bind_get_world.
  unfold session_uow. subst w. cbn [sessions].
  rewrite lookup_insert_eq. cbv [from_option Datatypes.id].
  unfold bind in H |- *.
  destruct (for_each flush_insert _ _) as [[[]|e1] wa].
  - destruct (for_each flush_update _ _) as [[[]|e2] wb].
    + by rewrite H.
    + by injection H as -> ->.
  - by injection H as -> ->.
Qed.
End Refused.

Section RefusedOne.
Context (t : gmap Z PlotBase) (s : Z) (h : list PlotModel)
        (ss : gmap nat UnitOfWork) (db : nat).

(** What the INSERT of a new instance comes to. *)
Lemma flush_insert_cut data u :
  forallb bindable (binds data) = true →
  columns_take data = true →
  t !! (s + 1) = None →
  flush_insert (length h)
    (mkWorld t s (h ++ [mkPlotModel None data]) (<[db:=u]> ss))
  = (Return tt,
     mkWorld (<[s + 1:=cut data]> t) (s + 1)
       (h ++ [mkPlotModel (Some (s + 1)) data]) (<[db:=u]> ss)).
Proof.
  intros Hb Htake Hfree. unfold flush_insert.
  erewrite bind_Return by apply getobj_last.
  cbn [columns]. rewrite Hb, insert_columns_cut, Htake.
  rewrite bind_get_world. simpl.
  unfold bind at 1, modify at 1, with_seq. simpl. rewrite Hfree.
  unfold bind at 1, modify at 1, with_plots. simpl.
  apply setattr_last.
Qed.

Lemma flush_insert_refused data u :
  (forallb bindable (binds data) && columns_take data) = false →
  flush_insert (length h)
    (mkWorld t s (h ++ [mkPlotModel None data]) (<[db:=u]> ss))
  = (Raise (if forallb bindable (binds data) then DataError else ValueError),
     mkWorld t s (h ++ [mkPlotModel None data]) (<[db:=u]> ss)).
Proof.
  intros H. unfold flush_insert.
  erewrite bind_Return by apply getobj_last.
  cbn [columns]. destruct (forallb bindable (binds data)); [|done].
  rewrite insert_columns_cut. simpl in H. by rewrite H.
Qed.

(** What the UPDATE of a loaded and modified instance comes to. *)
Lemma flush_update_cut n old data u :
  t !! n = Some old →
  storable old = true →
  forallb bindable (binds data) = true →
  columns_take data = true →
  flush_update (length h)
    (mkWorld t s (h ++ [mkPlotModel (Some n) data]) (<[db:=u]> ss))
  = (Return tt,
     mkWorld (<[n:=cut data]> t) s (h ++ [mkPlotModel (Some n) data])
       (<[db:=u]> ss)).
Proof.
  intros Hn Hold Hb Htake. unfold flush_update.
  erewrite bind_Return by apply getobj_last.
  rewrite bind_get_world. cbn [pk columns plots]. rewrite Hn.
  destruct (decide (old = data)) as [->|Hne].
  - destruct (storable_take _ Hold) as [_ ->].
    rewrite (insert_id _ _ _ Hn). reflexivity.
  - by rewrite (update_binds_sendable _ _ Hb), (update_columns_cut _ _ Hold), Htake.
Qed.

Lemma flush_update_refused n old data u :
  t !! n = Some old →
  storable old = true →
  (forallb bindable (binds data) && columns_take data) = false →
  flush_update (length h)
    (mkWorld t s (h ++ [mkPlotModel (Some n) data]) (<[db:=u]> ss))
  = (Raise (if forallb bindable (binds data) then DataError else ValueError),
     mkWorld t s (h ++ [mkPlotModel (Some n) data]) (<[db:=u]> ss)).
Proof.
  intros Hn Hold H. unfold flush_update.
  erewrite bind_Return by apply getobj_last.
  rewrite bind_get_world. cbn [pk columns plots]. rewrite Hn.
  destruct (forallb bindable (binds data)) eqn:Hb.
  - simpl in H. destruct (decide (old = data)) as [->|Hne].
    { destruct (storable_take _ Hold). congruence. }
    by rewrite (update_binds_sendable _ _ Hb), (update_columns_cut _ _ Hold), H.
  - destruct (update_binds_unsendable _ _ Hold Hb) as [-> Hne].
    by destruct (decide (old = data)).
Qed.

Lemma create_plot_cut data :
  forallb bindable (binds data) = true →
  columns_take data = true →
  t !! (s + 1) = None →
  create_plot data db (mkWorld t s h (<[db:=uow_empty]> ss))
  = (Raise (NameError "plotF"),
     mkWorld (<[s + 1:=cut data]> t) (s + 1)
       (h ++ [mkPlotModel (Some (s + 1)) (cut data)])
       (<[db:=mkUnitOfWork [] [length h] []]> ss)).
Proof.
  intros Hb Htake Hfree. unfold create_plot, new_PlotModel.
  destruct data as [ti wo st su].
  cbn [title work status summary].
  unfold bind at 1, alloc at 1, with_objects.
  cbn [objects plots plots_id_seq sessions].
  unfold db_add. erewrite bind_Return by apply update_uow_run.
  cbn [uow_new uow_identity uow_deleted uow_empty app].
  erewrite bind_Return; cycle 1.
  { rewrite (flush_run _ _ _ _ _ _
      (mkWorld (<[s + 1:=cut (mkPlotBase ti wo st su)]> t) (s + 1)
         (h ++ [mkPlotModel (Some (s + 1)) (mkPlotBase ti wo st su)])
         (<[db:=mkUnitOfWork [length h] [] []]> ss))
      (mkUnitOfWork [length h] [] [])); [done| |done].
    simpl. erewrite bind_Return; [done|].
    erewrite bind_Return by by eapply flush_insert_cut. done. }
  cbn [plots plots_id_seq objects].
  erewrite bind_Return by (apply db_refresh_last, lookup_insert_eq).
  by rewrite name_plotF.
Qed.

Lemma create_plot_refused data :
  (forallb bindable (binds data) && columns_take data) = false →
  create_plot data db (mkWorld t s h (<[db:=uow_empty]> ss))
  = (Raise (if forallb bindable (binds data) then DataError else ValueError),
     mkWorld t s (h ++ [mkPlotModel None data])
       (<[db:=mkUnitOfWork [length h] [] []]> ss)).
Proof.
  intros H. unfold create_plot, new_PlotModel. destruct data as [ti wo st su].
  cbn [title work status summary].
  unfold bind at 1, alloc at 1, with_objects.
  cbn [objects plots plots_id_seq sessions].
  unfold db_add. erewrite bind_Return by apply update_uow_run.
  cbn [uow_new uow_identity uow_deleted uow_empty app].
  erewrite bind_Raise; [reflexivity|].
  erewrite flush_fails; cycle 1.
  { simpl.
    erewrite bind_Raise; [reflexivity|].
    erewrite bind_Raise; [reflexivity|].
    by apply flush_insert_refused. }
  reflexivity.
Qed.

Lemma update_plot_cut n old data :
  t !! n = Some old →
  storable old = true →
  forallb bindable (binds data) = true →
  columns_take data = true →
  update_plot n data db (mkWorld t s h (<[db:=uow_empty]> ss))
  = (Return (length h),
     mkWorld (<[n:=cut data]> t) s (h ++ [mkPlotModel (Some n) (cut data)])
       (<[db:=mkUnitOfWork [] [length h] []]> ss)).
Proof.
  intros Hn Hold Hb Htake. unfold update_plot. destruct data as [ti wo st su].
  erewrite bind_Return by by eapply first_by_id_present.
  cbv beta iota.
  do 4 (erewrite bind_Return by apply setattr_last).
  cbn [set_title set_work set_status set_summary pk columns title work
       status summary uow_new uow_identity uow_deleted uow_empty app].
  erewrite bind_Return; cycle 1.
  { rewrite (flush_run _ _ _ _ _ _
      (mkWorld (<[n:=cut (mkPlotBase ti wo st su)]> t) s
         (h ++ [mkPlotModel (Some n) (mkPlotBase ti wo st su)])
         (<[db:=mkUnitOfWork [] [length h] []]> ss))
      (mkUnitOfWork [] [length h] [])); [done| |done].
    simpl. rewrite bind_ret. erewrite bind_Return; [done|].
    erewrite bind_Return by by eapply flush_update_cut. done. }
  cbn [plots plots_id_seq objects].
  erewrite bind_Return by (apply db_refresh_last, lookup_insert_eq).
  done.
Qed.

Lemma update_plot_refused n old data :
  t !! n = Some old →
  storable old = true →
  (forallb bindable (binds data) && columns_take data) = false →
  update_plot n data db (mkWorld t s h (<[db:=uow_empty]> ss))
  = (Raise (if forallb bindable (binds data) then DataError else ValueError),
     mkWorld t s (h ++ [mkPlotModel (Some n) data])
       (<[db:=mkUnitOfWork [] [length h] []]> ss)).
Proof.
  intros Hn Hold H. unfold update_plot. destruct data as [ti wo st su].
  erewrite bind_Return by by eapply first_by_id_present.
  cbv beta iota.
  do 4 (erewrite bind_Return by apply setattr_last).
  cbn [set_title set_work set_status set_summary pk columns title work
       status summary uow_new uow_identity uow_deleted uow_empty app].
  erewrite bind_Raise; [reflexivity|].
  erewrite flush_fails; cycle 1.
  { simpl. rewrite bind_ret.
    erewrite bind_Raise; [reflexivity|].
    erewrite bind_Raise; [reflexivity|].
    by eapply flush_update_refused. }
  reflexivity.
Qed.
End RefusedOne.

(** The requests that write, for any body. *)
Lemma POST_plots_cut w data :
  forallb bindable (binds data) = true →
  columns_take data = true →
  plots w !! (plots_id_seq w + 1) = None →
  ∃ w', app (POST_plots data) w = (Raise (NameError "plotF"), w')
        ∧ plots w' = <[plots_id_seq w + 1:=cut data]> (plots w)
        ∧ plots_id_seq w' = plots_id_seq w + 1.
Proof.
  intros Hb Htake Hfree. destruct w as [t s h ss]. eexists. unfold app.
  erewrite get_db_run; [split; [reflexivity|]|].
  2:{ cbn [with_sessions plots plots_id_seq objects sessions].
      erewrite bind_Raise by by eapply create_plot_cut.
      reflexivity. }
  done.
Qed.

Lemma POST_plots_refused w data :
  (forallb bindable (binds data) && columns_take data) = false →
  ∃ w', app (POST_plots data) w
        = (Raise (if forallb bindable (binds data) then DataError else ValueError), w')
        ∧ plots w' = plots w
        ∧ plots_id_seq w' = plots_id_seq w.
Proof.
  intros H. destruct w as [t s h ss]. eexists. unfold app.
  erewrite get_db_run; [split; [reflexivity|]|].
  2:{ cbn [with_sessions plots plots_id_seq objects sessions].
      erewrite bind_Raise by by eapply create_plot_refused.
      reflexivity. }
  done.
Qed.

Lemma PUT_plot_cut w n old data :
  plots w !! n = Some old →
  storable old = true →
  forallb bindable (binds data) = true →
  columns_take data = true →
  ∃ w', app (PUT_plot n data) w = (Return (RespPlot (mkPlotRead n (cut data))), w')
        ∧ plots w' = <[n:=cut data]> (plots w)
        ∧ plots_id_seq w' = plots_id_seq w.
Proof.
  intros Hn Hold Hb Htake. destruct w as [t s h ss]. eexists. unfold app.
  erewrite get_db_run; [split; [reflexivity|]|].
  2:{ cbn [with_sessions plots plots_id_seq objects sessions].
      erewrite bind_Return by by eapply update_plot_cut.
      erewrite bind_Return by apply to_PlotRead_last.
      reflexivity. }
  done.
Qed.

Lemma PUT_plot_refused w n old data :
  plots w !! n = Some old →
  storable old = true →
  (forallb bindable (binds data) && columns_take data) = false →
  ∃ w', app (PUT_plot n data) w
        = (Raise (if forallb bindable (binds data) then DataError else ValueError), w')
        ∧ plots w' = plots w
        ∧ plots_id_seq w' = plots_id_seq w.
Proof.
  intros Hn Hold H. destruct w as [t s h ss]. eexists. unfold app.
  erewrite get_db_run; [split; [reflexivity|]|].
  2:{ cbn [with_sessions plots plots_id_seq objects sessions].
      erewrite bind_Raise by by eapply update_plot_refused.
      reflexivity. }
  done.
Qed.

(** X10. A create whose strings the driver can send and whose title, work
    or status has a character other than a space beyond the width of its
    column (200, 100, 50 characters) stores nothing: the database refuses
    the INSERT, the request ends as an internal server error, and the
    table is as before. *)
Theorem create_overlong_stores_nothing (w : World) (data : PlotCreate) :
  forallb bindable (binds data) = true →
  columns_take data = false →
  let (r, w') := app (POST_plots data) w in
  r = Raise DataError
  ∧ http_status r = 500
  ∧ plots w' = plots w.
Proof.
  intros Hb Htake.
  destruct (POST_plots_refused w data) as (w' & -> & Ht & Hs).
  { by rewrite Hb, Htake. }
  by rewrite Hb.
Qed.

(** X11. An update of a stored plot with such a body changes nothing: the
    database refuses the UPDATE, the request ends as an internal server
    error, and the row keeps its old values. *)
Theorem update_overlong_keeps_row (w : World) (n : Z) (old data : PlotCreate) :
  plots w !! n = Some old →
  storable old = true →
  forallb bindable (binds data) = true →
  columns_take data = false →
  let (r, w') := app (PUT_plot n data) w in
  r = Raise DataError
  ∧ http_status r = 500
  ∧ plots w' = plots w
  ∧ plots w' !! n = Some old.
Proof.
  intros Hn Hold Hb Htake.
  destruct (PUT_plot_refused w n old data Hn Hold) as (w' & -> & Ht & Hs).
  { by rewrite Hb, Htake. }
  rewrite Hb, Ht. done.
Qed.

(** X19. Spaces beyond the width of a column are cut off: a body whose
    title, work and status have nothing but spaces beyond 200, 100 and 50
    characters is stored, by create and by update, with these three cut to
    the width, and the update answers with the values as stored, not as
    sent. *)
Theorem spaces_beyond_width_are_cut (w : World) (n : Z) (old data : PlotCreate) :
  forallb bindable (binds data) = true →
  columns_take data = true →
  plots w !! (plots_id_seq w + 1) = None →
  plots w !! n = Some old →
  storable old = true →
  (let (r, w') := app (POST_plots data) w in
   r = Raise (NameError "plotF")
   ∧ plots w' = <[plots_id_seq w + 1:=cut data]> (plots w))
  ∧ (let (r, w') := app (PUT_plot n data) w in
     r = Return (RespPlot (mkPlotRead n (cut data)))
     ∧ plots w' = <[n:=cut data]> (plots w)).
Proof.
  intros Hb Htake Hfree Hn Hold. split.
  - by destruct (POST_plots_cut w data Hb Htake Hfree) as (w' & -> & Ht & _).
  - by destruct (PUT_plot_cut w n old data Hn Hold Hb Htake) as (w' & -> & Ht & _).
Qed.

(** X20. A body with a string that the driver cannot send (one with the
    character U+0000 or a surrogate) is refused before any statement runs:
    create and update end with ValueError, an internal server error, and
    the table and the id sequence are as before. *)
Theorem unsendable_body_is_refused (w : World) (n : Z) (old data : PlotCreate) :
  forallb bindable (binds data) = false →
  plots w !! n = Some old →
  storable old = true →
  (let (r, w') := app (POST_plots data) w in
   r = Raise ValueError
   ∧ http_status r = 500
   ∧ plots w' = plots w
   ∧ plots_id_seq w' = plots_id_seq w)
  ∧ (let (r, w') := app (PUT_plot n data) w in
     r = Raise ValueError
     ∧ http_status r = 500
     ∧ plots w' = plots w
     ∧ plots_id_seq w' = plots_id_seq w).
Proof.
  intros Hb Hn Hold. split.
  - destruct (POST_plots_refused w data) as (w' & -> & Ht & Hs).
    { by rewrite Hb. }
    by rewrite Hb.
  - destruct (PUT_plot_refused w n old data Hn Hold) as (w' & -> & Ht & Hs).
    { by rewrite Hb. }
    by rewrite Hb.
Qed.

(** ** Filters *)

(** A list sorted by strictly ascending id whose members all occur in
    another such list is a subsequence of it. *)
Lemma sorted_subset_sublist (l1 l2 : list PlotRead) :
  StronglySorted id_lt l1 → StronglySorted id_lt l2 →
  (∀ p, p ∈ l1 → p ∈ l2) → l1 `sublist_of` l2.
Proof.
  intros H1 H2. revert l1 H1.
  induction H2 as [|y l2 Hs2 IH Hy]; intros l1 H1 Hsub.
  - destruct l1 as [|x l1]; [done|].
    specialize (Hsub x (list_elem_of_here _ _)). by apply not_elem_of_nil in Hsub.
  - rewrite Forall_forall in Hy.
    destruct l1 as [|x l1]; [apply sublist_nil_l|].
    apply StronglySorted_inv in H1 as [Hs1 Hx]. rewrite Forall_forall in Hx.
    assert (Htail : ∀ z, z ∈ l1 → id y < id z → z ∈ l2).
    { intros z Hz Hlt. assert (Hin : z ∈ y :: l2) by (apply Hsub; by right).
      apply elem_of_cons in Hin as [->|Hin]; [lia|done]. }
    assert (Hxin : x ∈ y :: l2) by (apply Hsub; left).
    apply elem_of_cons in Hxin as [->|Hxin].
    + apply sublist_skip, IH; [done|].
      intros z Hz. apply Htail; [done|]. by apply Hx.
    + apply sublist_cons, IH; [constructor; [done|by apply Forall_forall]|].
      pose proof (Hy x Hxin) as Hyx. unfold id_lt in *.
      intros z [->|Hz]%elem_of_cons; [done|].
      apply Htail; [done|]. specialize (Hx z Hz). unfold id_lt in Hx. lia.
Qed.

Lemma sendable_dropped (o o' : option str) :
  (o' = None ∨ o' = o) → sendable o = true → sendable o' = true.
Proof. by intros [->| ->]. Qed.

(** X13. Dropping filters never loses a plot: for filters that the driver
    can send, the answer to a list request is a subsequence of the answer
    to the request with some of its filters left out, and the request
    without filters answers with one entry for each row of the table. *)
Theorem dropping_filters_keeps_plots (w : World)
    (fwork fstatus fq fwork' fstatus' fq' : option str) :
  sendable_filters fwork fstatus fq = true →
  (fwork' = None ∨ fwork' = fwork) →
  (fstatus' = None ∨ fstatus' = fstatus) →
  (fq' = None ∨ fq' = fq) →
  ∃ ps ps' all,
    (app (GET_plots fwork fstatus fq) w).1 = Return (RespPlots ps)
    ∧ (app (GET_plots fwork' fstatus' fq') w).1 = Return (RespPlots ps')
    ∧ (app (GET_plots None None None) w).1 = Return (RespPlots all)
    ∧ ps `sublist_of` ps'
    ∧ ps' `sublist_of` all
    ∧ length all = size (plots w).
Proof.
  intros Hsend Hw Hs Hq.
  assert (Hsend' : sendable_filters fwork' fstatus' fq' = true).
  { unfold sendable_filters in *.
    apply andb_true_iff in Hsend as [[H1 H2]%andb_true_iff H3].
    by rewrite (sendable_dropped _ _ Hw H1), (sendable_dropped _ _ Hs H2),
         (sendable_dropped _ _ Hq H3). }
  destruct (GET_plots_run w fwork fstatus fq Hsend) as (w1 & -> & _).
  destruct (GET_plots_run w fwork' fstatus' fq' Hsend') as (w2 & -> & _).
  destruct (GET_plots_run w None None None) as (w3 & -> & _); [done|].
  do 3 eexists. do 3 (split; [reflexivity|]). repeat split.
  - apply sorted_subset_sublist; [apply listing_sorted..|].
    intros p. rewrite !elem_of_listing. intros [Hin Hsel]. split; [done|].
    unfold selected in *.
    apply andb_true_iff in Hsel as [[H1 H2]%andb_true_iff H3].
    apply andb_true_iff. split; [apply andb_true_iff; split|].
    + by destruct Hw as [->| ->].
    + by destruct Hs as [->| ->].
    + by destruct Hq as [->| ->].
  - apply sorted_subset_sublist; [apply listing_sorted..|].
    intros p. rewrite !elem_of_listing. by intros [Hin _].
  - rewrite listing_unfiltered, length_fmap. apply length_map_to_list.
Qed.

(** ** Search *)

Lemma selected_case fwork fstatus q1 q2 r :
  lower <$> q1 = lower <$> q2 →
  selected fwork fstatus (Some q1) r = selected fwork fstatus (Some q2) r.
Proof.
  intros Heq. unfold selected. f_equal.
  destruct q1 as [|a1 q1], q2 as [|a2 q2]; try done.
  cbn [given]. cbv zeta. unfold like_holds. by rewrite !lower_pattern, Heq.
Qed.

Lemma sendable_case q1 q2 :
  lower <$> q1 = lower <$> q2 → sendable (Some q1) = sendable (Some q2).
Proof.
  intros Heq. destruct q1 as [|a1 q1], q2 as [|a2 q2]; try done.
  cbn [sendable given]. by rewrite <- (bindable_lower (a1 :: q1)), Heq, bindable_lower.
Qed.

(** X14. The letter case of [q] does not matter: two list requests whose
    [q] are the same in lower case get the same answer, whatever other
    characters [q] has. *)
Theorem search_ignores_case_of_q (w : World) (fwork fstatus : option str) (q1 q2 : str) :
  lower <$> q1 = lower <$> q2 →
  (app (GET_plots fwork fstatus (Some q1)) w).1
  = (app (GET_plots fwork fstatus (Some q2)) w).1.
Proof.
  intros Heq. rewrite !GET_plots_result. unfold sendable_filters.
  rewrite (sendable_case _ _ Heq).
  destruct (_ && _); [|done].
  unfold listing. do 4 f_equal.
  apply list_filter_iff. intros r. by rewrite (selected_case _ _ _ _ _ Heq).
Qed.

Lemma escape_free_lower q : escape_free (lower <$> q) = escape_free q.
Proof.
  unfold escape_free. induction q as [|c q IH]; [done|].
  rewrite fmap_cons. cbn [forallb]. rewrite IH. do 2 f_equal.
  apply eqb_lower, lower_backslash.
Qed.

Lemma like_parse_escape_free q rest :
  escape_free q = true →
  like_parse (q ++ rest)
  = option_map (λ items, (item_of <$> q) ++ items) (like_parse rest).
Proof.
  unfold escape_free. induction q as [|c q IH]; intros H.
  - simpl. by destruct (like_parse rest).
  - cbn [forallb] in H. apply andb_true_iff in H as [Hc Hq].
    apply negb_true_iff in Hc.
    change ((c :: q) ++ rest) with (c :: (q ++ rest)).
    rewrite fmap_cons, like_parse_cons, Hc, (IH Hq). unfold item_of.
    destruct (c =? percent)%N, (c =? underscore)%N;
      by destruct (like_parse rest).
Qed.

Lemma like_match_any_zero p s :
  like_match p s = true → like_match (AnyString :: p) s = true.
Proof.
  intros H. destruct s as [|d s].
  - by rewrite like_match_skip_nil, H.
  - by rewrite like_match_skip, H.
Qed.

Lemma like_match_any_more p pre s :
  like_match (AnyString :: p) s = true →
  like_match (AnyString :: p) (pre ++ s) = true.
Proof.
  intros H. induction pre as [|d pre IH]; [done|].
  change ((d :: pre) ++ s) with (d :: (pre ++ s)).
  by rewrite like_match_skip, IH, orb_true_r.
Qed.

(** Each character of [q] read as a pattern matches itself. *)
Lemma like_match_itself q p s :
  like_match p s = true →
  like_match ((item_of <$> q) ++ p) (q ++ s) = true.
Proof.
  intros Hp. induction q as [|c q IH]; [done|].
  rewrite fmap_cons.
  change ((item_of c :: (item_of <$> q)) ++ p) with (item_of c :: ((item_of <$> q) ++ p)).
  change ((c :: q) ++ s) with (c :: (q ++ s)).
  unfold item_of at 1.
  destruct (c =? percent)%N; [|destruct (c =? underscore)%N].
  - rewrite like_match_skip. apply orb_true_iff. right.
    by apply like_match_any_zero.
  - done.
  - simpl. by rewrite N.eqb_refl.
Qed.

Lemma contains_ci_like q x :
  escape_free q = true →
  contains_ci q x = true →
  like_holds ([percent] ++ q ++ [percent]) (Some x) = Some true.
Proof.
  intros Hq Hc. unfold like_holds. rewrite lower_pattern.
  rewrite like_parse_cons. change (percent =? backslash)%N with false.
  change (percent =? percent)%N with true. cbv iota.
  rewrite like_parse_escape_free by by rewrite escape_free_lower.
  change (like_parse [percent]) with (Some [AnyString]).
  cbn [option_map]. f_equal.
  apply substringb_spec in Hc as (pre & post & ->).
  apply like_match_any_more, like_match_any_zero, like_match_itself, like_match_any.
Qed.

(** What contains a string that the driver cannot send cannot be sent
    either. *)
Lemma contains_ci_bindable q x :
  contains_ci q x = true → bindable x = true → bindable q = true.
Proof.
  intros Hc Hx. rewrite <- bindable_lower in Hx |- *.
  apply substringb_spec in Hc as (pre & post & Heq). rewrite Heq in Hx.
  unfold bindable in *. rewrite !forallb_app, !andb_true_iff in Hx.
  by destruct Hx as (_ & ? & _).
Qed.

Lemma satisfies_sendable fwork fstatus fq (c : PlotBase) :
  storable c = true →
  satisfies (given fwork) (given fstatus) (given fq) c = true →
  sendable_filters fwork fstatus fq = true.
Proof.
  unfold storable. rewrite forallb_binds, !andb_true_iff.
  intros [[[[Ht Hw] Hs] Hsum] _]. unfold satisfies, sendable_filters, sendable.
  rewrite !andb_true_iff. intros [[H1 H2] H3]. repeat split.
  - destruct (given fwork) as [v|]; [|done].
    apply bool_decide_eq_true in H1 as <-. done.
  - destruct (given fstatus) as [v|]; [|done].
    apply bool_decide_eq_true in H2 as <-. done.
  - destruct (given fq) as [v|]; [|done].
    apply orb_true_iff in H3 as [H3|H3]; [by eapply contains_ci_bindable|].
    destruct (summary c) as [x|]; [|done]. by eapply contains_ci_bindable.
Qed.

(** X15. The wildcards of LIKE only add to the answer: when [q] has no
    backslash, every stored plot — a row as the database holds it — that
    satisfies the filters of the request, [q] taken literally, letter case
    apart, is in the answer. *)
Theorem search_finds_every_literal_hit (w : World) (fwork fstatus : option str)
    (q : str) (p : PlotRead) :
  escape_free q = true →
  plots w !! id p = Some (fields p) →
  storable p = true →
  satisfies (given fwork) (given fstatus) (given (Some q)) p = true →
  ∃ ps, (app (GET_plots fwork fstatus (Some q)) w).1 = Return (RespPlots ps)
        ∧ p ∈ ps.
Proof.
  intros Hq Hin Hst Hsat.
  destruct (GET_plots_run w fwork fstatus (Some q)) as (w' & -> & _).
  { by eapply satisfies_sendable. }
  eexists. split; [reflexivity|]. apply elem_of_listing. split; [done|].
  unfold satisfies in Hsat. unfold selected. cbn [snd].
  apply andb_true_iff in Hsat as [Hws Hsq]. rewrite Hws, andb_true_l.
  destruct q as [|a q]; [done|]. cbn [given] in *. cbv zeta.
  apply orb_true_iff in Hsq as [Ht|Hs].
  - by rewrite (contains_ci_like _ _ Hq Ht).
  - destruct (summary p) as [x|]; [|done].
    rewrite (contains_ci_like _ _ Hq Hs).
    by destruct (like_holds _ (Some (title p))) as [[]|].
Qed.

(** ** Lists after writes *)

(** Two lists sorted by strictly ascending id with the same members are the
    same list. *)
Lemma sorted_same_members (l1 l2 : list PlotRead) :
  StronglySorted id_lt l1 → StronglySorted id_lt l2 →
  (∀ p, p ∈ l1 ↔ p ∈ l2) → l1 = l2.
Proof.
  intros H1 H2 Hm. apply (anti_symm sublist).
  - apply sorted_subset_sublist; [done..|]. intros p. by rewrite Hm.
  - apply sorted_subset_sublist; [done..|]. intros p. by rewrite Hm.
Qed.

Lemma sorted_filter (P : PlotRead → Prop) `{∀ p, Decision (P p)} l :
  StronglySorted id_lt l → StronglySorted id_lt (filter P l).
Proof.
  induction 1 as [|p l Hs IH Hall]; [constructor|].
  rewrite filter_cons. destruct (decide (P p)); [|done].
  constructor; [done|]. rewrite Forall_forall in Hall |- *.
  intros q [_ Hq]%list_elem_of_filter. by apply Hall.
Qed.

(** X16. A new plot is listed last: after any history, a create with a
    body that the database takes as it is adds to the answer of every list
    request whose filters the driver can send exactly the new plot, at the
    end, when the plot passes the filters of the request, and nothing
    otherwise. *)
Theorem created_plot_is_listed_last (reqs : list Request) (data : PlotCreate)
    (fwork fstatus fq : option str) :
  storable data = true →
  sendable_filters fwork fstatus fq = true →
  let w := serve reqs world0 in
  let w' := (app (POST_plots data) w).2 in
  let new := mkPlotRead (plots_id_seq w + 1) data in
  ∃ ps,
    (app (GET_plots fwork fstatus fq) w).1 = Return (RespPlots ps)
    ∧ (app (GET_plots fwork fstatus fq) w').1
      = Return (RespPlots
          (ps ++ if selected fwork fstatus fq (id new, fields new) then [new] else [])).
Proof.
  intros Hfit Hsend w w' new.
  destruct (keeps_serve reqs world0 store_ok_world0) as [Hok _]. fold w in Hok.
  pose proof (next_id_free w Hok) as Hfree.
  destruct (POST_plots_run w data Hfit Hfree) as (x & Hx & Ht & _).
  assert (w' = x) as Hw' by (unfold w'; by rewrite Hx). rewrite <- Hw' in Ht. clear x Hx Hw'.
  destruct (GET_plots_run w fwork fstatus fq Hsend) as (w1 & -> & _).
  destruct (GET_plots_run w' fwork fstatus fq Hsend) as (w2 & -> & _).
  eexists. split; [reflexivity|]. cbn [fst]. do 2 f_equal. rewrite Ht.
  set (tail := if selected fwork fstatus fq (id new, fields new) then [new] else []).
  assert (Htail : ∀ p, p ∈ tail ↔ p = new ∧ selected fwork fstatus fq (id new, fields new) = true).
  { intros p. unfold tail. destruct (selected _ _ _ _).
    - rewrite list_elem_of_singleton. split; [by intros ->|by intros [-> _]].
    - split; [by intros ?%not_elem_of_nil|by intros [_ ?]]. }
  apply sorted_same_members.
  - apply listing_sorted.
  - apply StronglySorted_app_2.
    + intros p1 p2 [Hp1 _]%elem_of_listing [-> _]%Htail.
      destruct Hok as [_ Hrows]. destruct (Hrows _ _ Hp1) as [Hk _].
      unfold id_lt, new. simpl. lia.
    + apply listing_sorted.
    + unfold tail. destruct (selected _ _ _ _); repeat constructor.
  - intros p. rewrite elem_of_app, !elem_of_listing, Htail. split.
    + intros [Hp Hsel]. destruct (decide (id p = plots_id_seq w + 1)) as [Heq|Hne].
      * right. rewrite Heq, lookup_insert_eq in Hp. injection Hp as Hp.
        assert (p = new) as -> by (destruct p; unfold new; simpl in *; congruence).
        done.
      * left. by rewrite lookup_insert_ne in Hp.
    + intros [[Hp Hsel]|[-> Hsel]].
      * split; [|done]. rewrite lookup_insert_ne; [done|].
        intros Heq. rewrite <- Heq in Hp. by rewrite Hfree in Hp.
      * split; [|done]. unfold new. simpl. apply lookup_insert_eq.
Qed.

(** X17. A deleted plot leaves the lists and nothing else does: after
    Delete plot on a stored id, every list request whose filters the driver
    can send answers what it answered before without the plot of that id,
    the others in the same order. *)
Theorem deleted_plot_leaves_lists (w : World) (n : Z) (c : PlotBase)
    (fwork fstatus fq : option str) :
  plots w !! n = Some c →
  sendable_filters fwork fstatus fq = true →
  let w' := (app (DELETE_plot n) w).2 in
  ∃ ps,
    (app (GET_plots fwork fstatus fq) w).1 = Return (RespPlots ps)
    ∧ (app (GET_plots fwork fstatus fq) w').1
      = Return (RespPlots (filter (λ p, id p ≠ n) ps)).
Proof.
  intros Hn Hsend w'.
  destruct (DELETE_plot_run w n c Hn) as (x & Hx & Ht).
  assert (w' = x) as Hw' by (unfold w'; by rewrite Hx). rewrite <- Hw' in Ht. clear x Hx Hw'.
  destruct (GET_plots_run w fwork fstatus fq Hsend) as (w1 & -> & _).
  destruct (GET_plots_run w' fwork fstatus fq Hsend) as (w2 & -> & _).
  eexists. split; [reflexivity|]. cbn [fst]. do 2 f_equal. rewrite Ht.
  apply sorted_same_members.
  - apply listing_sorted.
  - apply sorted_filter, listing_sorted.
  - intros p. rewrite list_elem_of_filter, !elem_of_listing, lookup_delete_Some.
    split.
    + by intros [[Hne Hp] Hsel].
    + by intros [Hne [Hp Hsel]].
Qed.

(** X18. An update moves no plot in the full list: after Update plot has
    stored, under a stored id, a body that the database takes as it is, the list without filters has the same
    ids in the same places, the entry of that id with the new values and
    every other entry as it was. *)
Theorem updated_plot_keeps_its_place (w : World) (n : Z) (old data : PlotCreate) :
  plots w !! n = Some old →
  storable data = true →
  let w' := (app (PUT_plot n data) w).2 in
  ∃ ps,
    (app (GET_plots None None None) w).1 = Return (RespPlots ps)
    ∧ (app (GET_plots None None None) w').1
      = Return (RespPlots
          ((λ p, if decide (id p = n) then mkPlotRead n data else p) <$> ps)).
Proof.
  intros Hn Hfit w'.
  destruct (PUT_plot_run w n old data Hn Hfit) as (x & Hx & Ht).
  assert (w' = x) as Hw' by (unfold w'; by rewrite Hx). rewrite <- Hw' in Ht. clear x Hx Hw'.
  destruct (GET_plots_run w None None None) as (w1 & -> & _); [done|].
  destruct (GET_plots_run w' None None None) as (w2 & -> & _); [done|].
  eexists. split; [reflexivity|]. cbn [fst]. do 2 f_equal. rewrite Ht.
  apply sorted_same_members.
  - apply listing_sorted.
  - eapply StronglySorted_fmap; [|apply listing_sorted].
    intros p1 p2 Hlt. unfold id_lt in *.
    assert (Hid : ∀ p, id (if decide (id p = n) then mkPlotRead n data else p) = id p).
    { intros p. case_decide; simpl; congruence. }
    by rewrite !Hid.
  - intros p. rewrite list_elem_of_fmap, elem_of_listing. split.
    + intros [Hp _]. destruct (decide (id p = n)) as [Heq|Hne].
      * exists (mkPlotRead n old). rewrite decide_True by done. split.
        -- rewrite Heq, lookup_insert_eq in Hp. injection Hp as Hp.
           destruct p; simpl in *; congruence.
        -- by apply elem_of_listing.
      * exists p. rewrite decide_False by done. split; [done|].
        apply elem_of_listing. by rewrite lookup_insert_ne in Hp.
    + intros (p0 & -> & [Hp0 _]%elem_of_listing). split; [|done].
      case_decide as Heq; simpl.
      * apply lookup_insert_eq.
      * by rewrite lookup_insert_ne.
Qed.

End Service.

(** * The properties at work

    The statements above hold for every locale of the database. Below they
    are applied to concrete requests, under the C locale unless another is
    named. *)

#[global] Existing Instance C_locale.

(** ** Requests for one plot *)

Lemma update_replaces_all_fields_witness :
  let old := mkPlotBase (text "Harbour") (text "B") (text "open")
               (Some (text "The dragon sleeps")) in
  let data := mkPlotBase (text "Harbour") (text "B") (text "done") None in
  plots sample_world !! 2 = Some old
  ∧ storable data = true
  ∧ let (r, w') := app (PUT_plot 2 data) sample_world in
    r = Return (RespPlot (mkPlotRead 2 data))
    ∧ plots w' !! 2 = Some data
    ∧ plots w' = <[2:=data]> (plots sample_world).
Proof.
  intros old data. split; [reflexivity|]. split; [reflexivity|].
  apply (update_replaces_all_fields sample_world 2 old data); reflexivity.
Defined.

(** C5 as stated fails on the code. The schema of the body puts no limit
    on the strings, and for the stored plot 2: a status of 57 characters is
    refused by the database, the request answers 500 and the row keeps its
    old values; a status of "done" and 47 spaces is stored and returned as
    "done" and 46 spaces, which is not the value of the request; and a
    title with U+0000 is refused by the driver, with 500 and the old
    row. *)
Lemma update_replaces_all_fields_counterexample :
  let old := mkPlotBase (text "Harbour") (text "B") (text "open")
               (Some (text "The dragon sleeps")) in
  let long := mkPlotBase (text "Harbour") (text "B")
                (text "a status of more than fifty characters, which is too long")
                None in
  let padded := mkPlotBase (text "Harbour") (text "B")
                  (text "done" ++ replicate 47 space) None in
  let nul := mkPlotBase (text "Harbour" ++ [0%N]) (text "B") (text "done") None in
  plots sample_world !! 2 = Some old
  ∧ (let (r, w') := app (PUT_plot 2 long) sample_world in
     r = Raise DataError ∧ http_status r = 500 ∧ plots w' !! 2 = Some old)
  ∧ (let (r, w') := app (PUT_plot 2 padded) sample_world in
     r = Return (RespPlot (mkPlotRead 2 (cut padded)))
     ∧ plots w' !! 2 = Some (cut padded)
     ∧ status (cut padded) = text "done" ++ replicate 46 space
     ∧ cut padded ≠ padded)
  ∧ (let (r, w') := app (PUT_plot 2 nul) sample_world in
     r = Raise ValueError ∧ http_status r = 500 ∧ plots w' !! 2 = Some old).
Proof.
  intros old long padded nul. split; [reflexivity|].
  split; [vm_compute; done|]. split; [|vm_compute; done].
  vm_compute. repeat split; congruence.
Qed.

Lemma delete_then_get_NotFound_witness :
  let c := mkPlotBase (text "50%_off") (text "A") (text "closed") (Some []) in
  plots sample_world !! 4 = Some c
  ∧ let (r, w') := app (DELETE_plot 4) sample_world in
    r = Return (RespDict [("message", JStr "deleted"); ("id", JInt 4)])
    ∧ plots w' = delete 4 (plots sample_world)
    ∧ (app (GET_plot 4) w').1 = NotFound
    ∧ http_status (app (GET_plot 4) w').1 = 404.
Proof.
  intros c. split; [reflexivity|].
  apply (delete_then_get_NotFound sample_world 4 c). reflexivity.
Defined.

Lemma unknown_id_NotFound_witness :
  let data := mkPlotBase (text "Harbour") (text "B") (text "done") None in
  plots sample_world !! 3 = None
  ∧ (app (GET_plot 3) sample_world).1 = NotFound
  ∧ (app (PUT_plot 3 data) sample_world).1 = NotFound
  ∧ (app (DELETE_plot 3) sample_world).1 = NotFound
  ∧ NotFound = Raise (HTTPException 404 "Plot not found")
  ∧ http_status NotFound = 404.
Proof.
  intros data. split; [reflexivity|].
  apply (unknown_id_NotFound sample_world 3 data). reflexivity.
Defined.

Lemma create_then_get_witness :
  let data := mkPlotBase (text "Dragon Rises") (text "A") (text "open") None in
  storable data = true
  ∧ plots world0 !! (plots_id_seq world0 + 1) = None
  ∧ let (r, w') := app (POST_plots data) world0 in
    let n := plots_id_seq world0 + 1 in
    r = Raise (NameError "plotF")
    ∧ http_status r = 500
    ∧ plots w' = <[n:=data]> (plots world0)
    ∧ (app (GET_plot n) w').1 = Return (RespPlot (mkPlotRead n data)).
Proof.
  intros data. split; [reflexivity|]. split; [reflexivity|].
  apply (create_then_get world0 data); reflexivity.
Defined.

(** ** List requests *)

Lemma list_plots_sorted_witness :
  let fwork := Some (text "C") in
  let fq := Some (text "zzz") in
  sendable_filters fwork None fq = true
  ∧ meta_free_opt fq = true
  ∧ (∀ k c, plots sample_world !! k = Some c →
            satisfies (given fwork) (given None) (given fq) c = false)
  ∧ (app (GET_plots fwork None fq) sample_world).1 = Return (RespPlots []).
Proof.
  intros fwork fq.
  assert (Hnone : ∀ k c, plots sample_world !! k = Some c →
                         satisfies (given fwork) (given None) (given fq) c = false).
  { intros k c Hk. apply elem_of_map_to_list in Hk.
    vm_compute in Hk. apply list_elem_of_In in Hk. simpl in Hk.
    destruct Hk as [[= <- <-]|[[= <- <-]|[[= <- <-]|[]]]]; reflexivity. }
  split; [reflexivity|]. split; [reflexivity|]. split; [exact Hnone|].
  destruct (list_plots_sorted sample_world fwork None fq eq_refl)
    as (ps & Hr & _ & _ & Hfree).
  destruct (Hfree eq_refl) as [_ Hempty].
  rewrite Hr, (Hempty Hnone). reflexivity.
Defined.

(** C3 as stated fails on the code in two ways. With [q] given as the one
    character U+0000 no stored plot matches, and the answer is not the
    empty sequence but an error: the driver refuses the string and the
    request answers 500. With [work=B] and [q] given as "_" no stored plot
    matches either (the one plot of work B has no underscore), and the
    answer is not empty: [_] stands for any character. *)
Lemma list_plots_sorted_counterexample :
  let nul := Some [0%N] in
  let fwork := Some (text "B") in
  let fq := Some (text "_") in
  ((∀ k c, plots sample_world !! k = Some c → satisfies None None nul c = false)
   ∧ (app (GET_plots None None nul) sample_world).1 = Raise ValueError
   ∧ http_status (app (GET_plots None None nul) sample_world).1 = 500)
  ∧ ((∀ k c, plots sample_world !! k = Some c → satisfies fwork None fq c = false)
     ∧ (app (GET_plots fwork None fq) sample_world).1
       = Return (RespPlots
           [mkPlotRead 2 (mkPlotBase (text "Harbour") (text "B") (text "open")
                            (Some (text "The dragon sleeps")))])).
Proof.
  intros nul fwork fq.
  assert (Hrows : ∀ (P : PlotBase → Prop),
            (∀ r, In r (map_to_list (plots sample_world)) → P r.2) →
            ∀ k c, plots sample_world !! k = Some c → P c).
  { intros P HP k c Hk. apply elem_of_map_to_list, list_elem_of_In in Hk.
    apply (HP _ Hk). }
  split; (split; [|vm_compute; done]);
    apply Hrows; vm_compute;
    intros r [<-|[<-|[<-|[]]]]; reflexivity.
Qed.

Lemma list_plots_filters_witness :
  let p := mkPlotRead 2 (mkPlotBase (text "Harbour") (text "B") (text "open")
                           (Some (text "The dragon sleeps"))) in
  let fwork := Some (text "B") in
  let fq := Some (text "DRAGON") in
  sendable_filters fwork (Some []) fq = true
  ∧ meta_free_opt fq = true
  ∧ ∃ ps,
      (app (GET_plots fwork (Some []) fq) sample_world).1 = Return (RespPlots ps)
      ∧ (p ∈ ps ↔
         plots sample_world !! id p = Some (fields p)
         ∧ satisfies (given fwork) (given (Some [])) (given fq) p = true).
Proof.
  intros p fwork fq. split; [reflexivity|]. split; [reflexivity|].
  apply (list_plots_filters sample_world fwork (Some []) fq p); reflexivity.
Defined.

(** C2 as stated fails on the code in two ways: with [work] given as the
    empty string the answer has a plot whose work is "A", and with [q]
    given as "_" the answer has a plot with no underscore in its title and
    no summary. *)
Lemma list_plots_filters_counterexample :
  let p := mkPlotRead 1 (mkPlotBase (text "Dragon Rises") (text "A") (text "open") None) in
  plots sample_world !! id p = Some (fields p)
  ∧ (∃ ps,
       (app (GET_plots (Some []) None None) sample_world).1 = Return (RespPlots ps)
       ∧ In p ps
       ∧ satisfies (Some []) None None p = false)
  ∧ (∃ ps,
       (app (GET_plots None None (Some (text "_"))) sample_world).1
       = Return (RespPlots ps)
       ∧ In p ps
       ∧ satisfies None None (Some (text "_")) p = false).
Proof.
  intros p. split; [reflexivity|].
  split; eexists; (split; [vm_compute; reflexivity|]);
    (split; [left; reflexivity|reflexivity]).
Qed.

(** ** The examples of the specification *)

(** Filter correctness: of (A, open), (B, open), (A, closed) the request
    [GET /plots?work=A&status=open] lists exactly the first. *)
Example filter_correctness :
  (app (GET_plots (Some (text "A")) (Some (text "open")) None) sample_world).1
  = Return (RespPlots
      [mkPlotRead 1 (mkPlotBase (text "Dragon Rises") (text "A") (text "open") None)]).
Proof. vm_compute. reflexivity. Qed.

(** Search correctness: "Dragon Rises" is found by [q=dragon] (and so is
    the plot whose summary has "dragon"), and nothing by [q=zzz]. *)
Example search_correctness :
  (app (GET_plots None None (Some (text "dragon"))) sample_world).1
  = Return (RespPlots
      [mkPlotRead 1 (mkPlotBase (text "Dragon Rises") (text "A") (text "open") None);
       mkPlotRead 2 (mkPlotBase (text "Harbour") (text "B") (text "open")
                       (Some (text "The dragon sleeps")))])
  ∧ (app (GET_plots None None (Some (text "zzz"))) sample_world).1
    = Return (RespPlots []).
Proof. split; vm_compute; reflexivity. Qed.

(** Which letters ILIKE folds is a matter of the locale: [q=école] finds
    the title "ÉCOLE" in a database whose locale knows Latin-1, and not
    under the C locale. *)
Example search_folds_by_locale :
  let ecole := [233; 99; 111; 108; 101]%N in
  let ECOLE := mkPlotBase [201; 67; 79; 76; 69]%N (text "A") (text "open") None in
  let w := (app (POST_plots ECOLE) world0).2 in
  plots w !! 1 = Some ECOLE
  ∧ (app (L:=latin1_locale) (GET_plots None None (Some ecole)) w).1
    = Return (RespPlots [mkPlotRead 1 ECOLE])
  ∧ (app (L:=C_locale) (GET_plots None None (Some ecole)) w).1
    = Return (RespPlots []).
Proof. intros ecole ECOLE w. repeat split; vm_compute; reflexivity. Qed.

(** [_] stands for one character, whatever its encoding takes: [q=a_b]
    finds the title of the three characters a, U+3042, b. *)
Example underscore_is_one_character :
  let data := mkPlotBase [97; 12354; 98]%N (text "A") (text "open") None in
  let w := (app (POST_plots data) world0).2 in
  (app (GET_plots None None (Some (text "a_b"))) w).1
  = Return (RespPlots [mkPlotRead 1 data]).
Proof. vm_compute. reflexivity. Qed.

(** A column counts characters: a status of 17 characters that takes 51
    bytes in UTF-8 is stored as it is. *)
Example width_counts_characters :
  let data := mkPlotBase (text "t") (text "w") (replicate 17 12354%N) None in
  storable data = true
  ∧ plots (app (POST_plots data) world0).2 !! 1 = Some data.
Proof. split; vm_compute; reflexivity. Qed.

(** ** Further properties *)

Lemma stored_plot_is_returned_witness :
  let c := mkPlotBase (text "Harbour") (text "B") (text "open")
               (Some (text "The dragon sleeps")) in
  plots sample_world !! 2 = Some c
  ∧ (app (GET_plot 2) sample_world).1 = Return (RespPlot (mkPlotRead 2 c))
  ∧ http_status (app (GET_plot 2) sample_world).1 = 200.
Proof.
  intros c. split; [reflexivity|].
  apply (stored_plot_is_returned sample_world 2 c). reflexivity.
Defined.

Lemma not_found_leaves_no_trace_witness :
  let data := mkPlotBase (text "Harbour") (text "B") (text "done") None in
  plots sample_world !! 3 = None
  ∧ app (GET_plot 3) sample_world = (NotFound, sample_world)
  ∧ app (PUT_plot 3 data) sample_world = (NotFound, sample_world)
  ∧ app (DELETE_plot 3) sample_world = (NotFound, sample_world).
Proof.
  intros data. split; [reflexivity|].
  apply (not_found_leaves_no_trace sample_world 3 data). reflexivity.
Defined.

Lemma update_then_get_witness :
  let old := mkPlotBase (text "Harbour") (text "B") (text "open")
               (Some (text "The dragon sleeps")) in
  let data := mkPlotBase (text "Harbour") (text "B") (text "done") None in
  plots sample_world !! 2 = Some old
  ∧ storable data = true
  ∧ let w' := (app (PUT_plot 2 data) sample_world).2 in
    (app (GET_plot 2) w').1 = Return (RespPlot (mkPlotRead 2 data))
    ∧ (app (GET_plot 2) w').1 = (app (PUT_plot 2 data) sample_world).1.
Proof.
  intros old data. split; [reflexivity|]. split; [reflexivity|].
  apply (update_then_get sample_world 2 old data); reflexivity.
Defined.

Lemma last_update_wins_witness :
  let old := mkPlotBase (text "Harbour") (text "B") (text "open")
               (Some (text "The dragon sleeps")) in
  let d1 := mkPlotBase (text "Harbour") (text "B") (text "done") None in
  let d2 := mkPlotBase (text "Harbor") (text "C") (text "open") (Some []) in
  plots sample_world !! 2 = Some old
  ∧ storable d1 = true
  ∧ storable d2 = true
  ∧ let w1 := (app (PUT_plot 2 d1) sample_world).2 in
    let (r2, w2) := app (PUT_plot 2 d2) w1 in
    r2 = Return (RespPlot (mkPlotRead 2 d2))
    ∧ plots w2 = <[2:=d2]> (plots sample_world)
    ∧ plots w2 = plots (app (PUT_plot 2 d2) sample_world).2.
Proof.
  intros old d1 d2. do 3 (split; [reflexivity|]).
  apply (last_update_wins sample_world 2 old d1 d2); reflexivity.
Defined.

Lemma delete_is_final_witness :
  let c := mkPlotBase (text "50%_off") (text "A") (text "closed") (Some []) in
  let data := mkPlotBase (text "Harbour") (text "B") (text "done") None in
  plots sample_world !! 4 = Some c
  ∧ 2 ≠ 4
  ∧ let w' := (app (DELETE_plot 4) sample_world).2 in
    (app (DELETE_plot 4) w').1 = NotFound
    ∧ (app (PUT_plot 4 data) w').1 = NotFound
    ∧ (app (GET_plot 2) w').1 = (app (GET_plot 2) sample_world).1.
Proof.
  intros c data. split; [reflexivity|]. split; [done|].
  apply (delete_is_final sample_world 4 2 c data); [reflexivity|done].
Defined.

Lemma ids_increase_witness :
  let d1 := mkPlotBase (text "Dragon Rises") (text "A") (text "open") None in
  let d2 := mkPlotBase (text "Harbour") (text "B") (text "open")
               (Some (text "The dragon sleeps")) in
  let reqs1 := [POST_plots d2] in
  let reqs2 := [DELETE_plot 2; GET_plots None None None] in
  storable d1 = true
  ∧ storable d2 = true
  ∧ let w1 := serve reqs1 world0 in
    let id1 := plots_id_seq w1 + 1 in
    let w1' := (app (POST_plots d1) w1).2 in
    let w2 := serve reqs2 w1' in
    let id2 := plots_id_seq w2 + 1 in
    let w2' := (app (POST_plots d2) w2).2 in
    (plots w1 !! id1 = None ∧ plots w1' !! id1 = Some d1)
    ∧ (plots w2 !! id2 = None ∧ plots w2' !! id2 = Some d2)
    ∧ id1 < id2.
Proof.
  intros d1 d2 reqs1 reqs2. split; [reflexivity|]. split; [reflexivity|].
  apply (ids_increase reqs1 reqs2 d1 d2); reflexivity.
Defined.

Lemma duplicates_are_stored_witness :
  let data := mkPlotBase (text "Dragon Rises") (text "A") (text "open") None in
  let reqs := [POST_plots data; DELETE_plot 1] in
  storable data = true
  ∧ let w := serve reqs world0 in
    let n := plots_id_seq w in
    let w2 := (app (POST_plots data) (app (POST_plots data) w).2).2 in
    plots w2 = <[n + 2:=data]> (<[n + 1:=data]> (plots w))
    ∧ plots w !! (n + 1) = None
    ∧ plots w !! (n + 2) = None
    ∧ size (plots w2) = (size (plots w) + 2)%nat.
Proof.
  intros data reqs. split; [reflexivity|].
  apply (duplicates_are_stored reqs data). reflexivity.
Defined.

Lemma created_plot_is_listed_last_witness :
  let data := mkPlotBase (text "Dragon Falls") (text "A") (text "open") None in
  let reqs := [POST_plots data; POST_plots data; DELETE_plot 1] in
  let fwork := Some (text "A") in
  let fq := Some (text "dragon") in
  storable data = true
  ∧ sendable_filters fwork None fq = true
  ∧ let w := serve reqs world0 in
    let w' := (app (POST_plots data) w).2 in
    let new := mkPlotRead (plots_id_seq w + 1) data in
    ∃ ps,
      (app (GET_plots fwork None fq) w).1 = Return (RespPlots ps)
      ∧ (app (GET_plots fwork None fq) w').1
        = Return (RespPlots
            (ps ++ if selected fwork None fq (id new, fields new)
                   then [new] else [])).
Proof.
  intros data reqs fwork fq. split; [reflexivity|]. split; [reflexivity|].
  apply (created_plot_is_listed_last reqs data fwork None fq); reflexivity.
Defined.

Lemma deleted_plot_leaves_lists_witness :
  let c := mkPlotBase (text "Dragon Rises") (text "A") (text "open") None in
  let fwork := Some (text "A") in
  plots sample_world !! 1 = Some c
  ∧ sendable_filters fwork None None = true
  ∧ let w' := (app (DELETE_plot 1) sample_world).2 in
    ∃ ps,
      (app (GET_plots fwork None None) sample_world).1 = Return (RespPlots ps)
      ∧ (app (GET_plots fwork None None) w').1
        = Return (RespPlots (filter (λ p, id p ≠ 1) ps)).
Proof.
  intros c fwork. split; [reflexivity|]. split; [reflexivity|].
  apply (deleted_plot_leaves_lists sample_world 1 c fwork None None); reflexivity.
Defined.

Lemma updated_plot_keeps_its_place_witness :
  let old := mkPlotBase (text "Harbour") (text "B") (text "open")
               (Some (text "The dragon sleeps")) in
  let data := mkPlotBase (text "Zebra") (text "Z") (text "done") None in
  plots sample_world !! 2 = Some old
  ∧ storable data = true
  ∧ let w' := (app (PUT_plot 2 data) sample_world).2 in
    ∃ ps,
      (app (GET_plots None None None) sample_world).1 = Return (RespPlots ps)
      ∧ (app (GET_plots None None None) w').1
        = Return (RespPlots
            ((λ p, if decide (id p = 2) then mkPlotRead 2 data else p) <$> ps)).
Proof.
  intros old data. split; [reflexivity|]. split; [reflexivity|].
  apply (updated_plot_keeps_its_place sample_world 2 old data); reflexivity.
Defined.

Lemma create_overlong_stores_nothing_witness :
  let data := mkPlotBase (text "t") (text "w")
                (text "a status of more than fifty characters, which is too long")
                None in
  forallb bindable (binds data) = true
  ∧ columns_take data = false
  ∧ let (r, w') := app (POST_plots data) sample_world in
    r = Raise DataError
    ∧ http_status r = 500
    ∧ plots w' = plots sample_world.
Proof.
  intros data. split; [reflexivity|]. split; [reflexivity|].
  apply (create_overlong_stores_nothing sample_world data); reflexivity.
Defined.

Lemma update_overlong_keeps_row_witness :
  let old := mkPlotBase (text "Harbour") (text "B") (text "open")
               (Some (text "The dragon sleeps")) in
  let data := mkPlotBase (text "Harbour") (text "B")
                (text "a status of more than fifty characters, which is too long")
                None in
  plots sample_world !! 2 = Some old
  ∧ storable old = true
  ∧ forallb bindable (binds data) = true
  ∧ columns_take data = false
  ∧ let (r, w') := app (PUT_plot 2 data) sample_world in
    r = Raise DataError
    ∧ http_status r = 500
    ∧ plots w' = plots sample_world
    ∧ plots w' !! 2 = Some old.
Proof.
  intros old data. do 4 (split; [reflexivity|]).
  apply (update_overlong_keeps_row sample_world 2 old data); reflexivity.
Defined.

Lemma spaces_beyond_width_are_cut_witness :
  let old := mkPlotBase (text "Harbour") (text "B") (text "open")
               (Some (text "The dragon sleeps")) in
  let data := mkPlotBase (text "Harbour") (text "B")
                (text "done" ++ replicate 47 space) None in
  forallb bindable (binds data) = true
  ∧ columns_take data = true
  ∧ plots sample_world !! (plots_id_seq sample_world + 1) = None
  ∧ plots sample_world !! 2 = Some old
  ∧ storable old = true
  ∧ status (cut data) = text "done" ++ replicate 46 space
  ∧ (let (r, w') := app (POST_plots data) sample_world in
     r = Raise (NameError "plotF")
     ∧ plots w' = <[plots_id_seq sample_world + 1:=cut data]> (plots sample_world))
  ∧ (let (r, w') := app (PUT_plot 2 data) sample_world in
     r = Return (RespPlot (mkPlotRead 2 (cut data)))
     ∧ plots w' = <[2:=cut data]> (plots sample_world)).
Proof.
  intros old data. do 6 (split; [reflexivity|]).
  apply (spaces_beyond_width_are_cut sample_world 2 old data); reflexivity.
Defined.

Lemma unsendable_body_is_refused_witness :
  let old := mkPlotBase (text "Harbour") (text "B") (text "open")
               (Some (text "The dragon sleeps")) in
  let data := mkPlotBase (text "Harbour") (text "B") (text "done")
                (Some (text "The dragon" ++ [0%N] ++ text "sleeps")) in
  forallb bindable (binds data) = false
  ∧ plots sample_world !! 2 = Some old
  ∧ storable old = true
  ∧ (let (r, w') := app (POST_plots data) sample_world in
     r = Raise ValueError
     ∧ http_status r = 500
     ∧ plots w' = plots sample_world
     ∧ plots_id_seq w' = plots_id_seq sample_world)
  ∧ (let (r, w') := app (PUT_plot 2 data) sample_world in
     r = Raise ValueError
     ∧ http_status r = 500
     ∧ plots w' = plots sample_world
     ∧ plots_id_seq w' = plots_id_seq sample_world).
Proof.
  intros old data. do 3 (split; [reflexivity|]).
  apply (unsendable_body_is_refused sample_world 2 old data); reflexivity.
Defined.

Lemma dropping_filters_keeps_plots_witness :
  let fwork := Some (text "A") in
  let fstatus := Some (text "open") in
  let fq := Some (text "dragon") in
  sendable_filters fwork fstatus fq = true
  ∧ (fwork = None ∨ fwork = fwork)
  ∧ (@None str = None ∨ None = fstatus)
  ∧ (@None str = None ∨ None = fq)
  ∧ ∃ ps ps' all,
    (app (GET_plots fwork fstatus fq) sample_world).1 = Return (RespPlots ps)
    ∧ (app (GET_plots fwork None None) sample_world).1 = Return (RespPlots ps')
    ∧ (app (GET_plots None None None) sample_world).1 = Return (RespPlots all)
    ∧ ps `sublist_of` ps'
    ∧ ps' `sublist_of` all
    ∧ length all = size (plots sample_world).
Proof.
  intros fwork fstatus fq.
  split; [reflexivity|]. split; [by right|]. split; [by left|]. split; [by left|].
  apply (dropping_filters_keeps_plots sample_world fwork fstatus fq fwork None None);
    [reflexivity|by right|by left|by left].
Defined.

Lemma search_ignores_case_of_q_witness :
  lower <$> text "Dr_GON" = lower <$> text "dr_gon"
  ∧ (app (GET_plots None (Some (text "open")) (Some (text "Dr_GON"))) sample_world).1
    = (app (GET_plots None (Some (text "open")) (Some (text "dr_gon"))) sample_world).1.
Proof.
  split; [reflexivity|].
  apply (search_ignores_case_of_q sample_world None (Some (text "open"))
           (text "Dr_GON") (text "dr_gon")).
  reflexivity.
Defined.

Lemma search_finds_every_literal_hit_witness :
  let p := mkPlotRead 4 (mkPlotBase (text "50%_off") (text "A") (text "closed")
                           (Some [])) in
  let fwork := Some (text "A") in
  let q := text "0%_O" in
  escape_free q = true
  ∧ plots sample_world !! id p = Some (fields p)
  ∧ storable p = true
  ∧ satisfies (given fwork) (given None) (given (Some q)) p = true
  ∧ ∃ ps, (app (GET_plots fwork None (Some q)) sample_world).1
          = Return (RespPlots ps)
          ∧ p ∈ ps.
Proof.
  intros p fwork q. do 4 (split; [reflexivity|]).
  apply (search_finds_every_literal_hit sample_world fwork None q p); reflexivity.
Defined.
